(** * GradBench, PyTorch tool: the GMM adapter [tools/pytorch/gmm.py]

    A shallow embedding of the adapter class [PyTorchGMM], of [prepare_input]
    and of the two wrapped entry points [calculate_objectiveGMM] and
    [calculate_jacobianGMM], together with the properties of the adapter
    contract proved on it.

    Python objects live in a heap of instances; a method call runs the method
    body on the instance the reference points to.  Exceptions are values of
    [exn]; a raised exception leaves the mutations made before it in place.
    The numerical collaborators that are not part of the module
    ([gmm_objective] and the differentiation behind [torch_jacobian]) are
    section variables; the trace records each call to them. *)

From Stdlib Require Import PrimFloat SpecFloat FloatOps ZArith.
From stdpp Require Import gmap strings list.

(** ** Exceptions and fallible results *)

Inductive exn : Type :=
  | AttributeError (attr : string)   (* instance attribute read before it is set *)
  | NameError (name : string)        (* global name that the module never binds *)
  | KeyError (key : string)          (* missing key of the raw record *)
  | ValueError                       (* tensor construction: row of the wrong length *)
  | TypeError                        (* tensor construction: number where a list is due, or the reverse *)
  | OverflowError                    (* tensor construction: int beyond the float64 range *)
  | RuntimeError (msg : string)      (* tensor operation outside its domain *)
  | ReferenceError                   (* call through a reference to no instance *)
  | NumericalError (msg : string).   (* raised inside the objective function *)

Inductive result (A : Type) : Type :=
  | Ok (a : A)
  | Raise (e : exn).
Arguments Ok {A} a.
Arguments Raise {A} e.

Definition rbind {A B} (r : result A) (k : A -> result B) : result B :=
  match r with
  | Ok a => k a
  | Raise e => Raise e
  end.

Notation "'let?' x := r 'in' k" := (rbind r (fun x => k))
  (at level 10, x name, r at level 100, k at level 200, only parsing).

(** ** Plain Python data: numbers and nested lists *)

#[warnings="-register-all"]
Inductive pyval : Type :=
  | PyFloat (x : float)
  | PyInt (n : Z)
  | PyList (l : list pyval).

(** The float64 nearest to an integer (ties to even); infinite when the
    integer is beyond the float64 range. *)
Definition nearest_float (n : Z) : float :=
  SF2Prim (binary_normalize prec emax n 0 false).

(** The least magnitude that rounds beyond the largest float64:
    [2^1024 - 2^970], half an ulp above it. *)
Definition float64_overflow : Z := 2 ^ 1024 - 2 ^ 970.

(** Conversion of a Python int to float64: the nearest float, or
    [OverflowError] when the int is too large. *)
Definition float_of_Z (n : Z) : result float :=
  if (float64_overflow <=? Z.abs n)%Z then Raise OverflowError
  else Ok (nearest_float n).

(** ** Tensors of the numeric framework

    A tensor is its shape, its elements in row-major order and the flag that
    says whether operations on it are tracked for differentiation. *)

Record tensor : Type := Tensor {
  requires_grad : bool;
  shape : list nat;
  data : list float
}.

Definition prod_shape (sh : list nat) : nat := foldr Nat.mul 1%nat sh.

Definition numel (t : tensor) : nat := prod_shape (shape t).

(** [torch.tensor(param, dtype=float64)] on numbers and nested lists.

    The shape is read off the value by following first elements: the length
    of the list, then the shape of its first element, down to a number or an
    empty list.  More than [MAX_DIMS] dimensions are refused. *)
Definition MAX_DIMS : nat := 128.

Fixpoint compute_sizes (v : pyval) : list nat :=
  match v with
  | PyFloat _ => []
  | PyInt _ => []
  | PyList l =>
      length l :: match l with
                  | [] => []
                  | first :: _ => compute_sizes first
                  end
  end.

(** The elements are then stored by walking the value along the shape:
    where the shape has a dimension left the value must be a list of that
    length, and where it has none the value must be a number. *)
Definition store_scalar (v : pyval) : result (list float) :=
  match v with
  | PyFloat x => Ok [x]
  | PyInt n => let? x := float_of_Z n in Ok [x]
  | PyList _ => Raise TypeError
  end.

Definition store_items (store_item : pyval -> result (list float))
  : list pyval -> result (list float) :=
  fix items (l : list pyval) :=
    match l with
    | [] => Ok []
    | v :: l' =>
        let? d := store_item v in
        let? ds := items l' in
        Ok (d ++ ds)
    end.

Fixpoint recursive_store (sizes : list nat) (v : pyval) : result (list float) :=
  match sizes with
  | [] => store_scalar v
  | n :: sizes' =>
      match v with
      | PyList l =>
          if decide (length l = n)
          then store_items (recursive_store sizes') l
          else Raise ValueError
      | _ => Raise TypeError
      end
  end.

(** A shape without elements (some dimension 0) gives the tensor without
    elements, and the value is not walked at all. *)
Definition tensor_of (v : pyval) : result (list nat * list float) :=
  let sizes := compute_sizes v in
  if decide (MAX_DIMS < length sizes) then Raise ValueError
  else if decide (prod_shape sizes = 0%nat) then Ok (sizes, [])
  else let? d := recursive_store sizes v in Ok (sizes, d).

Definition torch_tensor (param : pyval) (grad_req : bool) : result tensor :=
  let? sd := tensor_of param in
  Ok {| requires_grad := grad_req; shape := sd.1; data := sd.2 |}.

(** [torch.zeros(n)] and [torch.empty(n)] for a one-dimensional size.  The
    elements of [torch.empty] are unspecified; for size 0 there are none. *)
Definition torch_zeros (n : nat) : tensor :=
  {| requires_grad := false; shape := [n]; data := replicate n 0%float |}.

Definition torch_empty (n : nat) : tensor :=
  {| requires_grad := false; shape := [n]; data := replicate n 0%float |}.

(** [t.item()]: the single element of a one-element tensor. *)
Definition item (t : tensor) : result float :=
  match data t with
  | [v] => Ok v
  | _ => Raise (RuntimeError "only one element tensors can be converted to Python scalars")
  end.

(** [t.numpy()]: the plain array of a tensor that is not tracked. *)
Record ndarray : Type := NDArray {
  nd_shape : list nat;
  nd_data : list float
}.

Definition numpy (t : tensor) : result ndarray :=
  if requires_grad t
  then Raise (RuntimeError "Can't call numpy() on Tensor that requires grad")
  else Ok {| nd_shape := shape t; nd_data := data t |}.

(** [t.tolist()]: a number for a zero-dimensional tensor, else the list of
    the sub-tensors along the first dimension. *)
Fixpoint tolist_from (sh : list nat) (d : list float) : pyval :=
  match sh with
  | [] => PyFloat (hd 0%float d)
  | n :: sh' =>
      PyList (map (fun i => tolist_from sh' (take (prod_shape sh') (drop (i * prod_shape sh') d)))
                  (seq 0 n))
  end.

Definition tolist (t : tensor) : pyval := tolist_from (shape t) (data t).

(** ** Data definitions used by the adapter *)

(** Modelled from the spec: [Wishart] (module [defs], not among the sources)
    is the prior with the two scalar parameters [gamma] and [m]. *)
Module Wishart.
Record t : Type := mk { gamma : pyval; m : pyval }.
End Wishart.

(** Modelled from the spec: [GMMInput] (module [gmm_data], not among the
    sources) holds [alphas], [means], [icf], [x] and a [Wishart] prior, in
    the order in which [prepare_input] passes them. *)
Module GMMInput.
Record t : Type := mk {
  alphas : pyval;
  means : pyval;
  icf : pyval;
  x : pyval;
  wishart : Wishart.t
}.
End GMMInput.

(** Modelled from the spec: [GMMOutput] holds a scalar objective value and a
    gradient array.  The module under verification never binds this name. *)
Module GMMOutput.
Record t : Type := mk { objective : float; gradient : ndarray }.
End GMMOutput.

(** ** Global names of the module

    The names the module binds at top level: its imports (lines 32-39), the
    class and the three functions it defines.  A global name is looked up
    when the expression that mentions it is evaluated; Python's builtins,
    consulted next, have no entry for any name tested here. *)
Definition module_globals : list string :=
  [ "np"; "torch"; "Wishart"; "GMMInput"; "gmm_objective"; "ITest";
    "to_torch_tensor"; "to_torch_tensors"; "torch_jacobian"; "wrap";
    "PyTorchGMM"; "prepare_input"; "calculate_jacobianGMM";
    "calculate_objectiveGMM" ]%string.

Definition global_lookup (name : string) : result unit :=
  if bool_decide (name ∈ module_globals) then Ok tt else Raise (NameError name).

(** ** Instances, heap and the monad of method bodies *)

Definition tensors3 : Type := tensor * tensor * tensor.

(** The attributes of a [PyTorchGMM] instance; [None] is an attribute that
    has not been assigned (the class has no [__init__]). *)
Record PyTorchGMM : Type := Instance {
  inputs : option tensors3;
  params : option tensors3;
  objective : option tensor;
  gradient : option tensor
}.

Definition unprepared : PyTorchGMM :=
  {| inputs := None; params := None; objective := None; gradient := None |}.

Definition set_inputs (v : tensors3) (o : PyTorchGMM) : PyTorchGMM :=
  {| inputs := Some v; params := params o; objective := objective o; gradient := gradient o |}.
Definition set_params (v : tensors3) (o : PyTorchGMM) : PyTorchGMM :=
  {| inputs := inputs o; params := Some v; objective := objective o; gradient := gradient o |}.
Definition set_objective (v : tensor) (o : PyTorchGMM) : PyTorchGMM :=
  {| inputs := inputs o; params := params o; objective := Some v; gradient := gradient o |}.
Definition set_gradient (v : tensor) (o : PyTorchGMM) : PyTorchGMM :=
  {| inputs := inputs o; params := params o; objective := objective o; gradient := Some v |}.

(** Calls to the external numerical routines, most recent first. *)
Inductive event : Type :=
  | EvalObjective     (* gmm_objective called for its value *)
  | EvalJacobian.     (* torch_jacobian called for value and gradient *)

(** State and exceptions: a computation returns a result or raises, and in
    both cases hands on the state it reached. *)
Definition ST (St A : Type) : Type := St -> result A * St.

Definition ret {St A} (a : A) : ST St A := fun s => (Ok a, s).

Definition bind {St A B} (c : ST St A) (k : A -> ST St B) : ST St B :=
  fun s => match c s with
           | (Ok a, s') => k a s'
           | (Raise e, s') => (Raise e, s')
           end.

Definition lift {St A} (r : result A) : ST St A := fun s => (r, s).

Notation "'let*' x := c 'in' k" := (bind c (fun x => k))
  (at level 10, x name, c at level 100, k at level 200, only parsing).

(** A method body runs on [self] and the trace of external calls. *)
Definition Obj (A : Type) : Type := ST (PyTorchGMM * list event) A.

Definition getattr {A} (name : string) (field : PyTorchGMM -> option A) : Obj A :=
  fun s => match field s.1 with
           | Some v => (Ok v, s)
           | None => (Raise (AttributeError name), s)
           end.

Definition setattr (update : PyTorchGMM -> PyTorchGMM) : Obj unit :=
  fun s => (Ok tt, (update s.1, s.2)).

Definition emit (e : event) : Obj unit :=
  fun s => (Ok tt, (s.1, e :: s.2)).

(** [for i in range(times): body], for a body that does not read [i]. *)
Fixpoint iterate {St} (n : nat) (body : ST St unit) : ST St unit :=
  match n with
  | O => ret tt
  | S k => let* _ := body in iterate k body
  end.

Definition for_range {St} (times : Z) (body : ST St unit) : ST St unit :=
  iterate (Z.to_nat times) body.

(** The world: the instances that exist and the trace of external calls. *)
Definition loc : Type := positive.

Record world : Type := World {
  heap : gmap loc PyTorchGMM;
  trace : list event
}.

Definition M (A : Type) : Type := ST world A.

(** [PyTorchGMM()]: a new instance without attributes. *)
Definition new_PyTorchGMM : M loc :=
  fun w => let l := fresh (dom (heap w)) in
           (Ok l, {| heap := <[l := unprepared]> (heap w); trace := trace w |}).

(** [py.method(...)]: the method body run on the instance [py] refers to. *)
Definition call {A} (py : loc) (body : Obj A) : M A :=
  fun w => match heap w !! py with
           | None => (Raise ReferenceError, w)
           | Some o =>
               let '(r, (o', tr)) := body (o, trace w) in
               (r, {| heap := <[py := o']> (heap w); trace := tr |})
           end.

(** ** Tensor construction helpers *)

(** Modelled from the spec: [to_torch_tensors] (module [utils], not among
    the sources) converts each value of a tuple to a float64 tensor, with
    gradient tracking when [grad_req] is given as true and without it by
    default. *)
Definition grad_req_default : bool := false.

Definition to_torch_tensors (values : pyval * pyval * pyval) (grad_req : bool)
  : result tensors3 :=
  let '(v1, v2, v3) := values in
  let? t1 := torch_tensor v1 grad_req in
  let? t2 := torch_tensor v2 grad_req in
  let? t3 := torch_tensor v3 grad_req in
  Ok (t1, t2, t3).

(** The signature of the objective: [alphas, means, icf, x, gamma, m]. *)
Definition objective_fn : Type :=
  tensor -> tensor -> tensor -> tensor -> tensor -> tensor -> result tensor.

(** [func( *inputs, *params )] *)
Definition apply_star (func : objective_fn) (ins ps : tensors3) : result tensor :=
  let '(a, mu, q) := ins in
  let '(xs, g, wm) := ps in
  func a mu q xs g wm.

(** The raw record handed to the wrapped entry points. *)
Definition getitem (input : gmap string pyval) (key : string) : result pyval :=
  match input !! key with
  | Some v => Ok v
  | None => Raise (KeyError key)
  end.

Definition prepare_input (input : gmap string pyval) : result GMMInput.t :=
  let? alpha := getitem input "alpha" in
  let? means := getitem input "means" in
  let? icf := getitem input "icf" in
  let? x := getitem input "x" in
  let? gamma := getitem input "gamma" in
  let? m := getitem input "m" in
  Ok (GMMInput.mk alpha means icf x (Wishart.mk gamma m)).

(** Modelled from the spec: [wrap] (module [wrap_module], not among the
    sources) converts the raw record with [preprocess] before the core call
    and the result with [postprocess] after it. *)
Definition wrap {A B} (preprocess : gmap string pyval -> result A)
    (postprocess : B -> pyval) (function : A -> M B)
  : gmap string pyval -> M pyval :=
  fun input =>
    let* prepared := lift (preprocess input) in
    let* out := function prepared in
    ret (postprocess out).

(** The element count of an array: its length times the element count of
    its rows, which for an array is that of the first row; a number counts
    one and an empty list none. *)
Fixpoint count_elements (v : pyval) : nat :=
  match v with
  | PyFloat _ => 1
  | PyInt _ => 1
  | PyList l =>
      length l * match l with
                 | [] => 1
                 | first :: _ => count_elements first
                 end
  end.

(** The numbers of a nested list, left to right, as float64. *)
Fixpoint flatten (v : pyval) : list float :=
  match v with
  | PyFloat x => [x]
  | PyInt n => [nearest_float n]
  | PyList l => concat (map flatten l)
  end.

(** [has_shape sh v]: [v] is an array of shape [sh].  A number has the empty
    shape, provided an int is within the float64 range; a list has shape
    [n :: sh'] when it has [n] rows, each of shape [sh'], and an empty list
    has shape [[0]]. *)
Fixpoint has_shape (sh : list nat) (v : pyval) : bool :=
  match sh, v with
  | [], PyFloat _ => true
  | [], PyInt n => (Z.abs n <? float64_overflow)%Z
  | n :: sh', PyList l =>
      (length l =? n)%nat
      && (match l with [] => bool_decide (sh' = []) | _ :: _ => true end)
      && forallb (has_shape sh') l
  | _, _ => false
  end.

Definition is_array (sh : list nat) (v : pyval) : bool :=
  (length sh <=? MAX_DIMS)%nat && has_shape sh v.

(** The raw record of the round-trip scenario: two components, two
    dimensions, one data point. *)
#[warnings="-inexact-float"]
Definition example_raw : gmap string pyval :=
  list_to_map
    [ ("alpha", PyList [PyFloat 0.5; PyFloat 0.5]);
      ("means", PyList [PyList [PyInt 0; PyInt 0]; PyList [PyInt 1; PyInt 1]]);
      ("icf", PyList [PyList [PyInt 1; PyInt 0]; PyList [PyInt 1; PyInt 0]]);
      ("x", PyList [PyList [PyFloat 0.1; PyFloat 0.1]]);
      ("gamma", PyFloat 1.0);
      ("m", PyInt 0) ]%string.

#[warnings="-inexact-float"]
Definition example_input : GMMInput.t :=
  GMMInput.mk
    (PyList [PyFloat 0.5; PyFloat 0.5])
    (PyList [PyList [PyInt 0; PyInt 0]; PyList [PyInt 1; PyInt 1]])
    (PyList [PyList [PyInt 1; PyInt 0]; PyList [PyInt 1; PyInt 0]])
    (PyList [PyList [PyFloat 0.1; PyFloat 0.1]])
    (Wishart.mk (PyFloat 1.0) (PyInt 0)).

(** A stand-in objective and derivative, used to run the adapter on concrete
    data: the sum of all differentiable elements, whose partial derivatives
    are all one. *)
Definition sum_objective : objective_fn :=
  fun a mu q _ _ _ =>
    Ok {| requires_grad := true; shape := [];
          data := [foldr PrimFloat.add 0%float (data a ++ data mu ++ data q)] |}.

Definition sum_partial_derivative
  : objective_fn -> tensors3 -> tensors3 -> nat -> nat -> float :=
  fun _ _ _ _ _ => 1%float.

(** The tensors of the example record, and the value of the stand-in
    objective on them. *)
Definition example_inputs : tensors3 :=
  ({| requires_grad := true; shape := [2%nat]; data := [0.5; 0.5]%float |},
   {| requires_grad := true; shape := [2; 2]%nat; data := [0; 0; 1; 1]%float |},
   {| requires_grad := true; shape := [2; 2]%nat; data := [1; 0; 1; 0]%float |}).

#[warnings="-inexact-float"]
Definition example_params : tensors3 :=
  ({| requires_grad := false; shape := [1; 2]%nat; data := [0.1; 0.1]%float |},
   {| requires_grad := false; shape := []; data := [1]%float |},
   {| requires_grad := false; shape := []; data := [0]%float |}).

Definition example_value : tensor :=
  {| requires_grad := true; shape := []; data := [5]%float |}.

Definition example_prepared : PyTorchGMM :=
  {| inputs := Some example_inputs; params := Some example_params;
     objective := Some (torch_zeros 1); gradient := Some (torch_empty 0) |}.

(** The keys [prepare_input] reads, in the order in which it reads them. *)
Definition required_keys : list string :=
  [ "alpha"; "means"; "icf"; "x"; "gamma"; "m" ]%string.

(** An objective that always fails, to run the failure paths on. *)
Definition failing_objective : objective_fn :=
  fun _ _ _ _ _ _ => Raise (NumericalError "domain error").

(** The gradient of the stand-in objective on the example record. *)
Definition example_gradient : tensor :=
  {| requires_grad := false; shape := [10%nat]; data := replicate 10 1%float |}.


Definition empty_world : world := {| heap := ∅; trace := [] |}.

Section Adapter.

(** The external objective: a function of its six arguments that returns a
    tensor or raises. *)
Variable gmm_objective : objective_fn.

(** The external differentiation capability: the derivative of
    [func( *inputs, *params )] in element [j] (row-major) of input number [k]. *)
Variable partial_derivative : objective_fn -> tensors3 -> tensors3 -> nat -> nat -> float.

(** Modelled from the spec: [torch_jacobian] (module [utils], not among the
    sources) evaluates the function and its gradient in the differentiable
    inputs: one partial derivative per element, in the order of the
    flattened concatenation of the inputs. *)
Definition grad_wrt (func : objective_fn) (ins ps : tensors3) (k : nat) (t : tensor)
  : list float :=
  map (partial_derivative func ins ps k) (seq 0 (numel t)).

Definition torch_jacobian (func : objective_fn) (ins ps : tensors3)
  : result (tensor * tensor) :=
  let? res := apply_star func ins ps in
  let '(a, mu, q) := ins in
  let J := grad_wrt func ins ps 0 a ++ grad_wrt func ins ps 1 mu
           ++ grad_wrt func ins ps 2 q in
  Ok (res, {| requires_grad := false; shape := [length J]; data := J |}).

(** *** class PyTorchGMM(ITest) *)

Definition prepare (input : GMMInput.t) : Obj unit :=
  let* ins := lift (to_torch_tensors
                 (GMMInput.alphas input, GMMInput.means input, GMMInput.icf input)
                 true) in
  let* _ := setattr (set_inputs ins) in
  let* ps := lift (to_torch_tensors
                (GMMInput.x input,
                 Wishart.gamma (GMMInput.wishart input),
                 Wishart.m (GMMInput.wishart input))
                grad_req_default) in
  let* _ := setattr (set_params ps) in
  let* _ := setattr (set_objective (torch_zeros 1)) in
  setattr (set_gradient (torch_empty 0)).

Definition output : Obj GMMOutput.t :=
  let* _ := lift (global_lookup "GMMOutput") in
  let* o := getattr "objective" objective in
  let* v := lift (item o) in
  let* g := getattr "gradient" gradient in
  let* a := lift (numpy g) in
  ret (GMMOutput.mk v a).

(** The bodies of the two loops. *)
Definition objective_pass : Obj unit :=
  let* ins := getattr "inputs" inputs in
  let* ps := getattr "params" params in
  let* _ := emit EvalObjective in
  let* v := lift (apply_star gmm_objective ins ps) in
  setattr (set_objective v).

Definition jacobian_pass : Obj unit :=
  let* ins := getattr "inputs" inputs in
  let* ps := getattr "params" params in
  let* _ := emit EvalJacobian in
  let* og := lift (torch_jacobian gmm_objective ins ps) in
  let* _ := setattr (set_objective og.1) in
  setattr (set_gradient og.2).

Definition calculate_objective (times : Z) : Obj unit :=
  for_range times objective_pass.

Definition calculate_jacobian (times : Z) : Obj unit :=
  for_range times jacobian_pass.

(** *** The wrapped entry points *)

Definition calculate_jacobianGMM : gmap string pyval -> M pyval :=
  wrap prepare_input tolist
    (fun input =>
       let* py := new_PyTorchGMM in
       let* _ := call py (prepare input) in
       let* _ := call py (calculate_jacobian 1) in
       call py (getattr "gradient" gradient)).

Definition calculate_objectiveGMM : gmap string pyval -> M pyval :=
  wrap prepare_input tolist
    (fun input =>
       let* py := new_PyTorchGMM in
       let* _ := call py (prepare input) in
       let* _ := call py (calculate_objective 1) in
       call py (getattr "objective" objective)).

(** ** Notions used in the proofs *)

(** What one pass of the objective loop does, case by case. *)
Inductive pass_outcome (o : PyTorchGMM) (tr : list event)
  : result unit * (PyTorchGMM * list event) -> Prop :=
  | pass_no_inputs :
      inputs o = None ->
      pass_outcome o tr (Raise (AttributeError "inputs"), (o, tr))
  | pass_no_params ins :
      inputs o = Some ins -> params o = None ->
      pass_outcome o tr (Raise (AttributeError "params"), (o, tr))
  | pass_raises ins ps e :
      inputs o = Some ins -> params o = Some ps ->
      apply_star gmm_objective ins ps = Raise e ->
      pass_outcome o tr (Raise e, (o, EvalObjective :: tr))
  | pass_value ins ps v :
      inputs o = Some ins -> params o = Some ps ->
      apply_star gmm_objective ins ps = Ok v ->
      pass_outcome o tr (Ok tt, (set_objective v o, EvalObjective :: tr)).

(** A method body whose result and effect on the instance do not depend on
    the trace of external calls it starts from. *)
Definition trace_oblivious {A} (c : Obj A) : Prop :=
  forall o tr1 tr2,
    (c (o, tr1)).1 = (c (o, tr2)).1 /\ (c (o, tr1)).2.1 = (c (o, tr2)).2.1.

(** The method calls of one wrapped entry point, as one computation on the
    instance it creates. *)
Definition jacobian_session (input : GMMInput.t) : Obj tensor :=
  let* _ := prepare input in
  let* _ := calculate_jacobian 1 in
  getattr "gradient" gradient.

Definition objective_session (input : GMMInput.t) : Obj tensor :=
  let* _ := prepare input in
  let* _ := calculate_objective 1 in
  getattr "objective" objective.

(** The result of a wrapped entry point, read off the session it runs. *)
Definition session_result (session : GMMInput.t -> Obj tensor)
    (input : gmap string pyval) (tr : list event) : result pyval :=
  let? prepared := prepare_input input in
  let? out := (session prepared (unprepared, tr)).1 in
  Ok (tolist out).

(** * Properties *)

(** ** The tensor model on examples *)

Example tensor_of_matrix :
  torch_tensor (PyList [PyList [PyInt 0; PyInt 0]; PyList [PyFloat 1; PyFloat 1]]) true
  = Ok {| requires_grad := true; shape := [2; 2]%nat; data := [0; 0; 1; 1]%float |}.
Proof. vm_compute. reflexivity. Qed.

Example tensor_of_ragged :
  torch_tensor (PyList [PyList [PyInt 0; PyInt 0]; PyList [PyFloat 1]]) false
  = Raise ValueError.
Proof. vm_compute. reflexivity. Qed.

Example tolist_matrix :
  tolist {| requires_grad := true; shape := [2; 2]%nat; data := [0; 0; 1; 1]%float |}
  = PyList [PyList [PyFloat 0; PyFloat 0]; PyList [PyFloat 1; PyFloat 1]].
Proof. reflexivity. Qed.

(** A shape with a dimension 0 is taken from the first elements and the
    rest of the value is not looked at. *)
Example tensor_of_empty_row :
  tensor_of (PyList [PyList []; PyList [PyInt 1]]) = Ok ([2; 0]%nat, []).
Proof. vm_compute. reflexivity. Qed.

Example tensor_of_number_beside_list :
  tensor_of (PyList [PyInt 1; PyList [PyInt 2]]) = Raise TypeError
  /\ tensor_of (PyList [PyList [PyInt 2]; PyInt 1]) = Raise TypeError.
Proof. split; vm_compute; reflexivity. Qed.

Example nearest_float_values :
  nearest_float 3 = 3%float /\ nearest_float (-3) = (-3)%float
  /\ nearest_float (2 ^ 53 + 1) = 9007199254740992%float
  /\ nearest_float (float64_overflow - 1) = 0x1.fffffffffffffp+1023%float
  /\ nearest_float float64_overflow = infinity.
Proof. repeat split; vm_compute; reflexivity. Qed.

Example tensor_of_int_range :
  tensor_of (PyInt (float64_overflow - 1)) = Ok ([], [0x1.fffffffffffffp+1023%float])
  /\ tensor_of (PyInt float64_overflow) = Raise OverflowError
  /\ tensor_of (PyInt (- (10 ^ 400))) = Raise OverflowError.
Proof. repeat split; vm_compute; reflexivity. Qed.


(** ** The loops of the adapter *)

Lemma bind_ok {St A B} (c : ST St A) (k : A -> ST St B) s a s' :
  c s = (Ok a, s') -> bind c k s = k a s'.
Proof. intros H. unfold bind. now rewrite H. Qed.

Lemma bind_raise {St A B} (c : ST St A) (k : A -> ST St B) s e s' :
  c s = (Raise e, s') -> bind c k s = (Raise e, s').
Proof. intros H. unfold bind. now rewrite H. Qed.

Lemma iterate_raise {St} (body : ST St unit) n s e s' :
  body s = (Raise e, s') -> iterate (S n) body s = (Raise e, s').
Proof. intros H. simpl. now apply bind_raise. Qed.

Lemma iterate_ok {St} (body : ST St unit) n s s' :
  body s = (Ok tt, s') -> iterate (S n) body s = iterate n body s'.
Proof. intros H. simpl. now rewrite (bind_ok _ _ _ _ _ H). Qed.

Lemma getattr_unset {A} name (field : PyTorchGMM -> option A) o tr :
  field o = None -> getattr name field (o, tr) = (Raise (AttributeError name), (o, tr)).
Proof. intros H. unfold getattr. simpl. now rewrite H. Qed.

Lemma getattr_set {A} name (field : PyTorchGMM -> option A) o tr v :
  field o = Some v -> getattr name field (o, tr) = (Ok v, (o, tr)).
Proof. intros H. unfold getattr. simpl. now rewrite H. Qed.

Lemma objective_pass_outcome o tr : pass_outcome o tr (objective_pass (o, tr)).
Proof.
  unfold objective_pass.
  destruct (inputs o) as [ins|] eqn:Hi.
  2: { rewrite (bind_raise _ _ _ _ _ (getattr_unset "inputs" inputs o tr Hi)).
       now constructor. }
  rewrite (bind_ok _ _ _ _ _ (getattr_set "inputs" inputs o tr ins Hi)).
  destruct (params o) as [ps|] eqn:Hp.
  2: { rewrite (bind_raise _ _ _ _ _ (getattr_unset "params" params o tr Hp)).
       econstructor; eauto. }
  rewrite (bind_ok _ _ _ _ _ (getattr_set "params" params o tr ps Hp)).
  unfold bind, emit, lift, setattr. simpl.
  destruct (apply_star gmm_objective ins ps) as [v|e] eqn:Hv.
  - eapply pass_value; eauto.
  - eapply pass_raises; eauto.
Qed.

Lemma jacobian_pass_unset o tr :
  inputs o = None ->
  jacobian_pass (o, tr) = (Raise (AttributeError "inputs"), (o, tr)).
Proof.
  intros Hi. unfold jacobian_pass.
  now rewrite (bind_raise _ _ _ _ _ (getattr_unset "inputs" inputs o tr Hi)).
Qed.

Lemma replicate_shift {A} (x : A) k l :
  replicate k x ++ x :: l = replicate (S k) x ++ l.
Proof. induction k as [|k IH]; simpl; [reflexivity | now rewrite IH]. Qed.

(** The objective loop touches [objective] and nothing else, and every
    external call it makes is a plain evaluation of the objective. *)
Lemma objective_loop_frame n : forall o tr,
  let after := iterate n objective_pass (o, tr) in
  inputs after.2.1 = inputs o /\ params after.2.1 = params o
  /\ gradient after.2.1 = gradient o
  /\ exists k, after.2.2 = replicate k EvalObjective ++ tr.
Proof.
  induction n as [|n IH]; intros o tr after; subst after.
  - simpl. repeat split. now exists 0%nat.
  - pose proof (objective_pass_outcome o tr) as H.
    inversion H as [Hi Heq | ins Hi Hp Heq | ins ps e Hi Hp He Heq | ins ps v Hi Hp Hv Heq];
      symmetry in Heq.
    + rewrite (iterate_raise _ _ _ _ _ Heq). simpl. repeat split. now exists 0%nat.
    + rewrite (iterate_raise _ _ _ _ _ Heq). simpl. repeat split. now exists 0%nat.
    + rewrite (iterate_raise _ _ _ _ _ Heq). simpl. repeat split. now exists 1%nat.
    + rewrite (iterate_ok _ _ _ _ Heq).
      destruct (IH (set_objective v o) (EvalObjective :: tr)) as (H1 & H2 & H3 & k & H4).
      rewrite H1, H2, H3, H4. simpl. repeat split.
      exists (S k). apply replicate_shift.
Qed.

(** Once the objective has been stored, further passes store it again. *)
Lemma objective_loop_stable o ins ps v :
  inputs o = Some ins -> params o = Some ps ->
  apply_star gmm_objective ins ps = Ok v ->
  forall n tr,
    iterate n objective_pass (set_objective v o, tr)
    = (Ok tt, (set_objective v o, replicate n EvalObjective ++ tr)).
Proof.
  intros Hi Hp Hv n. induction n as [|n IH]; intros tr; [reflexivity|].
  pose proof (objective_pass_outcome (set_objective v o) tr) as H.
  inversion H as [Hi' Heq | ins' Hi' Hp' Heq | ins' ps' e Hi' Hp' He Heq
                  | ins' ps' v' Hi' Hp' Hv' Heq];
    simpl in Hi'; try simpl in Hp'; try congruence.
  assert (v' = v) by congruence. subst v'.
  symmetry in Heq. rewrite (iterate_ok _ _ _ _ Heq).
  change (set_objective v (set_objective v o)) with (set_objective v o).
  rewrite IH. now rewrite replicate_shift.
Qed.

(** On a prepared adapter whose objective evaluates to [v], any positive
    number of passes stores [v]. *)
Lemma calculate_objective_prepared times o tr ins ps v :
  (1 <= times)%Z ->
  inputs o = Some ins -> params o = Some ps ->
  apply_star gmm_objective ins ps = Ok v ->
  calculate_objective times (o, tr)
  = (Ok tt, (set_objective v o, replicate (Z.to_nat times) EvalObjective ++ tr)).
Proof.
  intros Ht Hi Hp Hv. unfold calculate_objective, for_range.
  destruct (Z.to_nat times) as [|n] eqn:Hn; [lia|].
  pose proof (objective_pass_outcome o tr) as H.
  inversion H as [Hi' Heq | ins' Hi' Hp' Heq | ins' ps' e Hi' Hp' He Heq
                  | ins' ps' v' Hi' Hp' Hv' Heq]; try congruence.
  assert (v' = v) by congruence. subst v'.
  symmetry in Heq. rewrite (iterate_ok _ _ _ _ Heq).
  rewrite (objective_loop_stable o ins ps v Hi Hp Hv). now rewrite replicate_shift.
Qed.

(** C9: with [times = 0] neither loop runs its body: both methods return
    normally and leave the instance and the trace of external calls as they
    were, whatever the instance, so also on one that was never prepared. *)
Theorem calculate_zero_times (s : PyTorchGMM * list event) :
  calculate_objective 0 s = (Ok tt, s) /\ calculate_jacobian 0 s = (Ok tt, s).
Proof. split; reflexivity. Qed.

(** C2: on an instance on which [prepare] was never called, both evaluation
    methods raise the attribute error for [inputs] for every positive
    [times], make no external call and leave the instance as it was, so that
    every later attempt fails in the same way. *)
Theorem calculate_before_prepare (times : Z) (tr : list event) :
  (0 < times)%Z ->
  calculate_objective times (unprepared, tr)
    = (Raise (AttributeError "inputs"), (unprepared, tr))
  /\ calculate_jacobian times (unprepared, tr)
    = (Raise (AttributeError "inputs"), (unprepared, tr)).
Proof.
  intros Ht. unfold calculate_objective, calculate_jacobian, for_range.
  destruct (Z.to_nat times) as [|n] eqn:Hn; [lia|]. split.
  - pose proof (objective_pass_outcome unprepared tr) as H.
    inversion H as [Hi Heq | ins Hi Hp Heq | ins ps e Hi Hp He Heq | ins ps v Hi Hp Hv Heq];
      try discriminate.
    symmetry in Heq. apply (iterate_raise _ _ _ _ _ Heq).
  - apply iterate_raise. now apply jacobian_pass_unset.
Qed.

(** C6: [calculate_objective] leaves [inputs], [params] and [gradient] of the
    instance as they were, and the only external calls it makes are plain
    evaluations of the objective: the Jacobian routine is never called. *)
Theorem calculate_objective_frame (times : Z) (o : PyTorchGMM) (tr : list event) :
  let after := calculate_objective times (o, tr) in
  inputs after.2.1 = inputs o /\ params after.2.1 = params o
  /\ gradient after.2.1 = gradient o
  /\ exists k, after.2.2 = replicate k EvalObjective ++ tr.
Proof. apply objective_loop_frame. Qed.

(** C5: for every [times >= 1], [calculate_objective times] ends with the
    same [objective] attribute (indeed the same instance and the same
    outcome) as [calculate_objective 1]. *)
Theorem calculate_objective_times_once (times : Z) (s : PyTorchGMM * list event) :
  (1 <= times)%Z ->
  let after_times := calculate_objective times s in
  let after_once := calculate_objective 1 s in
  objective after_times.2.1 = objective after_once.2.1
  /\ after_times.2.1 = after_once.2.1
  /\ after_times.1 = after_once.1.
Proof.
  intros Ht after_times after_once. subst after_times after_once.
  destruct s as [o tr].
  pose proof (objective_pass_outcome o tr) as H.
  inversion H as [Hi Heq | ins Hi Hp Heq | ins ps e Hi Hp He Heq | ins ps v Hi Hp Hv Heq].
  4: { rewrite !(calculate_objective_prepared _ o tr ins ps v) by (lia || assumption).
       now repeat split. }
  all: symmetry in Heq; unfold calculate_objective, for_range;
    destruct (Z.to_nat times) as [|n] eqn:Hn; [lia|];
    change (Z.to_nat 1) with 1%nat;
    rewrite !(iterate_raise _ _ _ _ _ Heq); now repeat split.
Qed.

(** ** Tensor construction *)

Lemma pyval_nested_ind (P : pyval -> Prop) :
  (forall x, P (PyFloat x)) -> (forall n, P (PyInt n)) ->
  (forall l, Forall P l -> P (PyList l)) ->
  forall v, P v.
Proof.
  intros Hf Hi Hl. fix IH 1. intros [x|n|l].
  - apply Hf.
  - apply Hi.
  - apply Hl. induction l as [|v l IHl]; constructor; [apply IH | exact IHl].
Qed.

(** The element count of a value is the product of the dimensions read off
    it. *)
Lemma count_elements_sizes v : prod_shape (compute_sizes v) = count_elements v.
Proof.
  induction v as [x|n|l IH] using pyval_nested_ind; try reflexivity.
  destruct l as [|first l]; [reflexivity|].
  apply Forall_cons in IH as [IH _].
  change (length (first :: l) * prod_shape (compute_sizes first)
          = length (first :: l) * count_elements first)%nat.
  now rewrite IH.
Qed.

Lemma store_scalar_length v d : store_scalar v = Ok d -> length d = 1%nat.
Proof.
  destruct v as [x|n|l]; simpl.
  - now intros [= <-].
  - destruct (float_of_Z n) as [x|e]; simpl; [|discriminate]. now intros [= <-].
  - discriminate.
Qed.

Lemma store_items_length store_item n l :
  (forall v d, store_item v = Ok d -> length d = n) ->
  forall d, store_items store_item l = Ok d -> length d = (length l * n)%nat.
Proof.
  intros Hitem. induction l as [|v l IH]; intros d; simpl.
  - now intros [= <-].
  - destruct (store_item v) as [dv|e] eqn:Hv; simpl; [|discriminate].
    destruct (store_items store_item l) as [ds|e]; simpl; [|discriminate].
    intros [= <-]. rewrite length_app, (Hitem v dv Hv), (IH ds eq_refl). lia.
Qed.

(** Storing along a shape yields as many elements as the shape says. *)
Lemma recursive_store_length sizes :
  forall v d, recursive_store sizes v = Ok d -> length d = prod_shape sizes.
Proof.
  induction sizes as [|n sizes IH]; intros v d; simpl.
  - apply store_scalar_length.
  - destruct v as [x|z|l]; try discriminate.
    destruct (decide (length l = n)) as [<-|]; [|discriminate].
    intros H.
    exact (store_items_length (recursive_store sizes) (prod_shape sizes) l IH d H).
Qed.

Lemma tensor_of_sized v sh d :
  tensor_of v = Ok (sh, d) ->
  sh = compute_sizes v /\ length d = prod_shape sh.
Proof.
  unfold tensor_of.
  destruct (decide (MAX_DIMS < length (compute_sizes v))); [discriminate|].
  destruct (decide (prod_shape (compute_sizes v) = 0%nat)) as [Hz|Hz].
  - intros [= <- <-]. now rewrite Hz.
  - destruct (recursive_store (compute_sizes v) v) as [dv|e] eqn:Hs; simpl; [|discriminate].
    intros [= <- <-]. split; [reflexivity|]. now apply recursive_store_length with (v := v).
Qed.

Lemma torch_tensor_ok v g t :
  torch_tensor v g = Ok t ->
  requires_grad t = g /\ tensor_of v = Ok (shape t, data t)
  /\ numel t = count_elements v /\ length (data t) = count_elements v.
Proof.
  unfold torch_tensor. destruct (tensor_of v) as [[sh d]|e] eqn:Hv; simpl; [|discriminate].
  intros [= <-]. simpl. unfold numel. simpl.
  destruct (tensor_of_sized v sh d Hv) as [-> H2].
  rewrite <- (count_elements_sizes v). repeat split; congruence.
Qed.

(** *** Arrays *)

Lemma has_shape_sizes sh : forall v, has_shape sh v = true -> compute_sizes v = sh.
Proof.
  induction sh as [|n sh IH]; intros [x|z|l]; simpl; try discriminate; try reflexivity.
  rewrite !andb_true_iff. intros [[Hn Hempty] Hrows].
  apply Nat.eqb_eq in Hn. destruct l as [|first l]; simpl in *.
  - apply bool_decide_eq_true in Hempty. now subst.
  - apply andb_true_iff in Hrows as [Hfirst _]. rewrite (IH first Hfirst). now subst.
Qed.

Lemma has_shape_items sh l :
  (forall v, has_shape sh v = true -> recursive_store sh v = Ok (flatten v)) ->
  forallb (has_shape sh) l = true ->
  store_items (recursive_store sh) l = Ok (concat (map flatten l)).
Proof.
  intros IH. induction l as [|v l IHl]; simpl; [reflexivity|].
  rewrite andb_true_iff. intros [Hv Hl]. now rewrite (IH v Hv), (IHl Hl).
Qed.

Lemma has_shape_store sh :
  forall v, has_shape sh v = true -> recursive_store sh v = Ok (flatten v).
Proof.
  induction sh as [|n sh IH]; intros [x|z|l]; simpl; try discriminate.
  - reflexivity.
  - intros Hz. apply Z.ltb_lt in Hz. unfold float_of_Z.
    destruct (float64_overflow <=? Z.abs z)%Z eqn:Hle; [apply Z.leb_le in Hle; lia|].
    reflexivity.
  - rewrite !andb_true_iff. intros [[Hn _] Hrows]. apply Nat.eqb_eq in Hn.
    destruct (decide (length l = n)); [|contradiction].
    now apply has_shape_items.
Qed.

(** An array converts to the tensor of its shape holding its numbers in
    row-major order. *)
Lemma is_array_tensor_of sh v :
  is_array sh v = true -> tensor_of v = Ok (sh, flatten v).
Proof.
  unfold is_array. rewrite andb_true_iff. intros [Hdims Hshape].
  apply Nat.leb_le in Hdims. unfold tensor_of.
  rewrite (has_shape_sizes sh v Hshape).
  destruct (decide (MAX_DIMS < length sh)); [lia|].
  pose proof (has_shape_store sh v Hshape) as Hstore.
  pose proof (recursive_store_length sh v _ Hstore) as Hlen.
  destruct (decide (prod_shape sh = 0%nat)) as [Hz|Hz].
  - rewrite Hz in Hlen. now destruct (flatten v).
  - now rewrite Hstore.
Qed.

(** The element count of an array is the number of numbers it holds. *)
Lemma count_elements_array sh v :
  is_array sh v = true -> count_elements v = length (flatten v).
Proof.
  intros H. pose proof (is_array_tensor_of sh v H) as Ht.
  destruct (tensor_of_sized v sh _ Ht) as [Hs Hl].
  now rewrite Hl, Hs, count_elements_sizes.
Qed.


(** ** [prepare], [prepare_input] and [output] *)

Lemma prepare_run input o tr ins ps :
  to_torch_tensors
    (GMMInput.alphas input, GMMInput.means input, GMMInput.icf input) true = Ok ins ->
  to_torch_tensors
    (GMMInput.x input, Wishart.gamma (GMMInput.wishart input),
     Wishart.m (GMMInput.wishart input)) grad_req_default = Ok ps ->
  prepare input (o, tr)
  = (Ok tt, ({| inputs := Some ins; params := Some ps;
                objective := Some (torch_zeros 1);
                gradient := Some (torch_empty 0) |}, tr)).
Proof.
  intros Hi Hp. unfold prepare, bind, lift, setattr. rewrite Hi. cbv beta iota.
  rewrite Hp. reflexivity.
Qed.


Lemma getitem_present (input : gmap string pyval) key v :
  input !! key = Some v -> getitem input key = Ok v.
Proof. intros H. unfold getitem. now rewrite H. Qed.

(** C7: [prepare_input] applied to a record with the six keys builds the
    [GMMInput] whose fields are the values stored under [alpha], [means],
    [icf], [x] and whose prior holds those under [gamma] and [m], unchanged. *)
Theorem prepare_input_exact (input : gmap string pyval) (alpha means icf x gamma m : pyval) :
  input !! "alpha" = Some alpha -> input !! "means" = Some means ->
  input !! "icf" = Some icf -> input !! "x" = Some x ->
  input !! "gamma" = Some gamma -> input !! "m" = Some m ->
  prepare_input input = Ok (GMMInput.mk alpha means icf x (Wishart.mk gamma m)).
Proof.
  intros Ha Hmu Hq Hx Hg Hm. unfold prepare_input.
  rewrite (getitem_present _ _ _ Ha), (getitem_present _ _ _ Hmu),
    (getitem_present _ _ _ Hq), (getitem_present _ _ _ Hx),
    (getitem_present _ _ _ Hg), (getitem_present _ _ _ Hm).
  reflexivity.
Qed.

Lemma GMMOutput_unbound : global_lookup "GMMOutput" = Raise (NameError "GMMOutput").
Proof. vm_compute. reflexivity. Qed.

(** C1: [output] raises [NameError] for [GMMOutput] in every state of the
    adapter, prepared or not, before it reads any attribute: the module
    binds [GMMInput] but never [GMMOutput].  No snapshot is returned. *)
Theorem output_raises_name_error (s : PyTorchGMM * list event) :
  output s = (Raise (NameError "GMMOutput"), s).
Proof.
  unfold output. apply bind_raise. unfold lift. now rewrite GMMOutput_unbound.
Qed.

(** ** The Jacobian *)

Lemma grad_wrt_length func ins ps k t :
  length (grad_wrt func ins ps k t) = numel t.
Proof. unfold grad_wrt. now rewrite length_map, length_seq. Qed.

Lemma torch_jacobian_layout func a mu q ps v :
  apply_star func (a, mu, q) ps = Ok v ->
  exists g,
    torch_jacobian func (a, mu, q) ps = Ok (v, g)
    /\ requires_grad g = false
    /\ shape g = [(numel a + numel mu + numel q)%nat]
    /\ data g = grad_wrt func (a, mu, q) ps 0 a ++ grad_wrt func (a, mu, q) ps 1 mu
                ++ grad_wrt func (a, mu, q) ps 2 q.
Proof.
  intros Hv. eexists. unfold torch_jacobian. rewrite Hv. simpl.
  split; [reflexivity|]. simpl. split; [reflexivity|]. split; [|reflexivity].
  rewrite !length_app, !grad_wrt_length. f_equal. lia.
Qed.

Lemma jacobian_pass_run o tr ins ps v g :
  inputs o = Some ins -> params o = Some ps ->
  torch_jacobian gmm_objective ins ps = Ok (v, g) ->
  jacobian_pass (o, tr)
  = (Ok tt, (set_gradient g (set_objective v o), EvalJacobian :: tr)).
Proof.
  intros Hi Hp Hj. unfold jacobian_pass.
  rewrite (bind_ok _ _ _ _ _ (getattr_set "inputs" inputs o tr ins Hi)).
  rewrite (bind_ok _ _ _ _ _ (getattr_set "params" params o tr ps Hp)).
  unfold bind, emit, lift, setattr. cbv beta iota. rewrite Hj. reflexivity.
Qed.

Lemma tolist_flat_data (d : list float) :
  map (fun i => tolist_from [] (take (prod_shape []) (drop (i * prod_shape []) d)))
      (seq 0 (length d))
  = map PyFloat d.
Proof.
  induction d as [|x d IH]; [reflexivity|].
  simpl length. rewrite <- cons_seq, <- List.seq_shift.
  rewrite !List.map_cons, List.map_map. f_equal.
  rewrite <- IH. apply List.map_ext. intros i. reflexivity.
Qed.

Lemma tolist_flat (g : tensor) :
  shape g = [length (data g)] -> tolist g = PyList (map PyFloat (data g)).
Proof.
  intros Hs. unfold tolist. rewrite Hs. simpl tolist_from. f_equal.
  apply tolist_flat_data.
Qed.

(** ** Instances in the heap *)

Lemma call_seq {A B} (py : loc) (c : Obj A) (k : A -> Obj B) (w : world) :
  is_Some (heap w !! py) ->
  bind (call py c) (fun a => call py (k a)) w = call py (bind c k) w.
Proof.
  intros [o Ho]. unfold bind, call. rewrite Ho.
  destruct (c (o, trace w)) as [[a|e] [o' tr']]; simpl; [|reflexivity].
  rewrite lookup_insert_eq.
  destruct (k a (o', tr')) as [r [o'' tr'']]. now rewrite insert_insert_eq.
Qed.

Lemma call_allocated {A} (py : loc) (c : Obj A) (w : world) :
  is_Some (heap w !! py) -> is_Some (heap (call py c w).2 !! py).
Proof.
  intros [o Ho]. unfold call. rewrite Ho.
  destruct (c (o, trace w)) as [r [o' tr']]. simpl. rewrite lookup_insert_eq. eauto.
Qed.

Lemma call_frame {A} (py l : loc) (c : Obj A) (w : world) :
  l <> py -> heap (call py c w).2 !! l = heap w !! l.
Proof.
  intros Hne. unfold call. destruct (heap w !! py) as [o|]; [|reflexivity].
  destruct (c (o, trace w)) as [r [o' tr']]. simpl. now rewrite lookup_insert_ne.
Qed.

Lemma new_PyTorchGMM_fresh (w : world) : heap w !! fresh (dom (heap w)) = None.
Proof. apply not_elem_of_dom. apply is_fresh. Qed.

(** A new instance followed by method calls on it: the calls run as one
    computation on the instance without attributes; instances that existed
    before are not touched. *)
Lemma new_then_call {A} (c : Obj A) (w : world) :
  let run := c (unprepared, trace w) in
  let after := bind new_PyTorchGMM (fun py => call py c) w in
  after.1 = run.1 /\ trace after.2 = run.2.2
  /\ forall l o, heap w !! l = Some o -> heap after.2 !! l = Some o.
Proof.
  unfold bind, new_PyTorchGMM, call. simpl. rewrite lookup_insert_eq.
  destruct (c (unprepared, trace w)) as [r [o' tr']]. simpl.
  repeat split. intros l o Hl.
  rewrite insert_insert_eq, lookup_insert_ne; [exact Hl|].
  intros <-. rewrite new_PyTorchGMM_fresh in Hl. discriminate.
Qed.

Lemma call_then {A B} (py : loc) (c : Obj A) (k : A -> M B) (k' : A -> Obj B) (w : world) :
  is_Some (heap w !! py) ->
  (forall a w', is_Some (heap w' !! py) -> k a w' = call py (k' a) w') ->
  bind (call py c) k w = call py (bind c k') w.
Proof.
  intros Hpy Hk. rewrite <- call_seq by exact Hpy.
  unfold bind. pose proof (call_allocated py c w Hpy) as Hafter.
  destruct (call py c w) as [[a|e] w']; [|reflexivity].
  now apply Hk.
Qed.

Lemma session_calls {A B C} (c1 : Obj A) (c2 : Obj B) (c3 : Obj C) (w : world) :
  bind new_PyTorchGMM
    (fun py => bind (call py c1) (fun _ => bind (call py c2) (fun _ => call py c3))) w
  = bind new_PyTorchGMM
      (fun py => call py (bind c1 (fun _ => bind c2 (fun _ => c3)))) w.
Proof.
  unfold bind at 1 4. unfold new_PyTorchGMM.
  apply call_then.
  - simpl. rewrite lookup_insert_eq. eauto.
  - intros _ w' Hw'. now apply call_seq.
Qed.

Lemma calculate_jacobianGMM_session input w :
  bind new_PyTorchGMM
    (fun py => bind (call py (prepare input))
       (fun _ => bind (call py (calculate_jacobian 1))
          (fun _ => call py (getattr "gradient" gradient)))) w
  = bind new_PyTorchGMM (fun py => call py (jacobian_session input)) w.
Proof. apply session_calls. Qed.

Lemma calculate_objectiveGMM_session input w :
  bind new_PyTorchGMM
    (fun py => bind (call py (prepare input))
       (fun _ => bind (call py (calculate_objective 1))
          (fun _ => call py (getattr "objective" objective)))) w
  = bind new_PyTorchGMM (fun py => call py (objective_session input)) w.
Proof. apply session_calls. Qed.

Lemma entry_point_run (session : GMMInput.t -> Obj tensor)
    (function : GMMInput.t -> M tensor) (input : gmap string pyval) (w : world) :
  (forall prepared w',
     function prepared w' = bind new_PyTorchGMM (fun py => call py (session prepared)) w') ->
  let after := wrap prepare_input tolist function input w in
  after.1 = session_result session input (trace w)
  /\ forall l o, heap w !! l = Some o -> heap after.2 !! l = Some o.
Proof.
  intros Hf after. subst after. unfold wrap, session_result.
  destruct (prepare_input input) as [prepared|e].
  2: { split; [reflexivity | intros l o Hl; exact Hl]. }
  change (bind (lift (Ok prepared)) ?k w) with (k prepared w). cbv beta.
  destruct (new_then_call (session prepared) w) as (H1 & _ & H3).
  rewrite <- Hf in H1, H3. unfold bind, ret.
  destruct (function prepared w) as [[out|e] w']; simpl in *;
    rewrite <- H1; simpl; auto.
Qed.

Lemma calculate_jacobianGMM_run input w :
  let after := calculate_jacobianGMM input w in
  after.1 = session_result jacobian_session input (trace w)
  /\ forall l o, heap w !! l = Some o -> heap after.2 !! l = Some o.
Proof.
  apply entry_point_run. intros prepared w'. apply calculate_jacobianGMM_session.
Qed.

Lemma calculate_objectiveGMM_run input w :
  let after := calculate_objectiveGMM input w in
  after.1 = session_result objective_session input (trace w)
  /\ forall l o, heap w !! l = Some o -> heap after.2 !! l = Some o.
Proof.
  apply entry_point_run. intros prepared w'. apply calculate_objectiveGMM_session.
Qed.

(** ** Independence of the trace *)

Lemma oblivious_ret {A} (a : A) : trace_oblivious (ret a).
Proof. intros o tr1 tr2. now split. Qed.

Lemma oblivious_lift {A} (r : result A) : trace_oblivious (lift r).
Proof. intros o tr1 tr2. now split. Qed.

Lemma oblivious_getattr {A} name (field : PyTorchGMM -> option A) :
  trace_oblivious (getattr name field).
Proof. intros o tr1 tr2. unfold getattr. simpl. now destruct (field o). Qed.

Lemma oblivious_setattr update : trace_oblivious (setattr update).
Proof. intros o tr1 tr2. now split. Qed.

Lemma oblivious_emit e : trace_oblivious (emit e).
Proof. intros o tr1 tr2. now split. Qed.

Lemma oblivious_bind {A B} (c : Obj A) (k : A -> Obj B) :
  trace_oblivious c -> (forall a, trace_oblivious (k a)) -> trace_oblivious (bind c k).
Proof.
  intros Hc Hk o tr1 tr2. unfold bind. destruct (Hc o tr1 tr2) as [H1 H2].
  destruct (c (o, tr1)) as [[a|e] [o1 t1]], (c (o, tr2)) as [[a'|e'] [o2 t2]];
    simpl in *; try discriminate.
  - injection H1 as <-. subst o2. apply Hk.
  - split; congruence.
Qed.

Lemma oblivious_iterate n (body : Obj unit) :
  trace_oblivious body -> trace_oblivious (iterate n body).
Proof.
  intros Hb. induction n as [|n IH]; simpl.
  - apply oblivious_ret.
  - apply oblivious_bind; [exact Hb | intros _; exact IH].
Qed.

Create HintDb oblivious.
#[local] Hint Resolve oblivious_ret oblivious_lift oblivious_getattr oblivious_setattr
  oblivious_emit oblivious_bind oblivious_iterate : oblivious.

Lemma oblivious_prepare input : trace_oblivious (prepare input).
Proof. unfold prepare. auto 10 with oblivious. Qed.

Lemma oblivious_calculate_objective times : trace_oblivious (calculate_objective times).
Proof.
  unfold calculate_objective, for_range, objective_pass. auto 10 with oblivious.
Qed.

Lemma oblivious_calculate_jacobian times : trace_oblivious (calculate_jacobian times).
Proof.
  unfold calculate_jacobian, for_range, jacobian_pass. auto 10 with oblivious.
Qed.

#[local] Hint Resolve oblivious_prepare oblivious_calculate_objective
  oblivious_calculate_jacobian : oblivious.

Lemma session_result_trace (session : GMMInput.t -> Obj tensor) input tr1 tr2 :
  (forall prepared, trace_oblivious (session prepared)) ->
  session_result session input tr1 = session_result session input tr2.
Proof.
  intros Hs. unfold session_result.
  destruct (prepare_input input) as [prepared|e]; simpl; [|reflexivity].
  now destruct (Hs prepared unprepared tr1 tr2) as [-> _].
Qed.

(** C10: the result of a wrapped entry point on a raw record is the same in
    every world it is called in, in particular in the world left behind by
    an earlier call; the instances that existed before the call are left as
    they were. *)
Theorem entry_points_deterministic (input : gmap string pyval) (w1 w2 : world) :
  ((calculate_objectiveGMM input w1).1 = (calculate_objectiveGMM input w2).1
   /\ (calculate_jacobianGMM input w1).1 = (calculate_jacobianGMM input w2).1)
  /\ ((calculate_objectiveGMM input (calculate_objectiveGMM input w1).2).1
        = (calculate_objectiveGMM input w1).1
      /\ (calculate_jacobianGMM input (calculate_jacobianGMM input w1).2).1
        = (calculate_jacobianGMM input w1).1)
  /\ (forall l o, heap w1 !! l = Some o ->
        heap (calculate_objectiveGMM input w1).2 !! l = Some o
        /\ heap (calculate_jacobianGMM input w1).2 !! l = Some o).
Proof.
  assert (Hobj : forall w w', (calculate_objectiveGMM input w).1
                              = (calculate_objectiveGMM input w').1).
  { intros w w'.
    destruct (calculate_objectiveGMM_run input w) as [-> _].
    destruct (calculate_objectiveGMM_run input w') as [-> _].
    apply session_result_trace. intros prepared. unfold objective_session.
    auto 10 with oblivious. }
  assert (Hjac : forall w w', (calculate_jacobianGMM input w).1
                              = (calculate_jacobianGMM input w').1).
  { intros w w'.
    destruct (calculate_jacobianGMM_run input w) as [-> _].
    destruct (calculate_jacobianGMM_run input w') as [-> _].
    apply session_result_trace. intros prepared. unfold jacobian_session.
    auto 10 with oblivious. }
  repeat split; auto.
  - now apply calculate_objectiveGMM_run.
  - now apply calculate_jacobianGMM_run.
Qed.

(** ** The stored gradient *)

Lemma to_torch_tensors_ok v1 v2 v3 g t1 t2 t3 :
  to_torch_tensors (v1, v2, v3) g = Ok (t1, t2, t3) ->
  torch_tensor v1 g = Ok t1 /\ torch_tensor v2 g = Ok t2 /\ torch_tensor v3 g = Ok t3.
Proof.
  unfold to_torch_tensors.
  destruct (torch_tensor v1 g) as [u1|e]; simpl; [|discriminate].
  destruct (torch_tensor v2 g) as [u2|e]; simpl; [|discriminate].
  destruct (torch_tensor v3 g) as [u3|e]; simpl; [|discriminate].
  now intros [= <- <- <-].
Qed.

Lemma calculate_jacobian_once o tr ins ps v g :
  inputs o = Some ins -> params o = Some ps ->
  torch_jacobian gmm_objective ins ps = Ok (v, g) ->
  calculate_jacobian 1 (o, tr)
  = (Ok tt, (set_gradient g (set_objective v o), EvalJacobian :: tr)).
Proof.
  intros Hi Hp Hj. unfold calculate_jacobian, for_range.
  change (Z.to_nat 1) with 1%nat.
  now rewrite (iterate_ok _ _ _ _ (jacobian_pass_run o tr ins ps v g Hi Hp Hj)).
Qed.

Lemma jacobian_session_run input tr ins ps v g :
  to_torch_tensors
    (GMMInput.alphas input, GMMInput.means input, GMMInput.icf input) true = Ok ins ->
  to_torch_tensors
    (GMMInput.x input, Wishart.gamma (GMMInput.wishart input),
     Wishart.m (GMMInput.wishart input)) grad_req_default = Ok ps ->
  torch_jacobian gmm_objective ins ps = Ok (v, g) ->
  (jacobian_session input (unprepared, tr)).1 = Ok g.
Proof.
  intros Hi Hp Hj. unfold jacobian_session.
  rewrite (bind_ok _ _ _ _ _ (prepare_run input unprepared tr ins ps Hi Hp)).
  set (o := {| inputs := Some ins; params := Some ps;
               objective := Some (torch_zeros 1);
               gradient := Some (torch_empty 0) |}).
  rewrite (bind_ok _ _ _ _ _
             (calculate_jacobian_once o tr ins ps v g eq_refl eq_refl Hj)).
  reflexivity.
Qed.

(** The layout of the gradient that [calculate_jacobian 1] stores on an
    adapter prepared with [input], and what the wrapped entry point returns. *)
Lemma jacobian_layout (raw : gmap string pyval) (input : GMMInput.t)
    (ins ps : tensors3) (v : tensor) :
  prepare_input raw = Ok input ->
  to_torch_tensors
    (GMMInput.alphas input, GMMInput.means input, GMMInput.icf input) true = Ok ins ->
  to_torch_tensors
    (GMMInput.x input, Wishart.gamma (GMMInput.wishart input),
     Wishart.m (GMMInput.wishart input)) grad_req_default = Ok ps ->
  apply_star gmm_objective ins ps = Ok v ->
  let n_alphas := count_elements (GMMInput.alphas input) in
  let n_means := count_elements (GMMInput.means input) in
  let n_icf := count_elements (GMMInput.icf input) in
  let d_alphas := grad_wrt gmm_objective ins ps 0 ins.1.1 in
  let d_means := grad_wrt gmm_objective ins ps 1 ins.1.2 in
  let d_icf := grad_wrt gmm_objective ins ps 2 ins.2 in
  exists g,
    (shape g = [(n_alphas + n_means + n_icf)%nat]
     /\ length (data g) = (n_alphas + n_means + n_icf)%nat
     /\ data g = d_alphas ++ d_means ++ d_icf
     /\ length d_alphas = n_alphas /\ length d_means = n_means
     /\ length d_icf = n_icf)
    /\ (forall o tr,
          bind (prepare input) (fun _ => calculate_jacobian 1) (o, tr)
          = (Ok tt, ({| inputs := Some ins; params := Some ps;
                        objective := Some v; gradient := Some g |},
                     EvalJacobian :: tr)))
    /\ (forall w,
          (calculate_jacobianGMM raw w).1 = Ok (PyList (map PyFloat (data g)))).
Proof.
  intros Hraw Hi Hp Hv. destruct ins as [[a mu] q]. simpl.
  destruct (to_torch_tensors_ok _ _ _ _ _ _ _ Hi) as (Ta & Tmu & Tq).
  apply torch_tensor_ok in Ta as (_ & _ & Na & _), Tmu as (_ & _ & Nmu & _),
    Tq as (_ & _ & Nq & _).
  destruct (torch_jacobian_layout gmm_objective a mu q ps v Hv)
    as (g & Hj & _ & Hshape & Hdata).
  assert (Hlen : length (data g)
                 = (count_elements (GMMInput.alphas input)
                    + count_elements (GMMInput.means input)
                    + count_elements (GMMInput.icf input))%nat).
  { rewrite Hdata, !length_app, !grad_wrt_length. lia. }
  exists g. split; [|split].
  - rewrite !grad_wrt_length. rewrite Hshape, Na, Nmu, Nq. repeat split; assumption.
  - intros o tr.
    rewrite (bind_ok _ _ _ _ _ (prepare_run input o tr _ ps Hi Hp)).
    cbv beta.
    apply calculate_jacobian_once with (ins := (a, mu, q)) (ps := ps);
      [reflexivity | reflexivity | exact Hj].
  - intros w. destruct (calculate_jacobianGMM_run raw w) as [-> _].
    unfold session_result. rewrite Hraw. simpl.
    rewrite (jacobian_session_run input (trace w) _ ps v g Hi Hp Hj). simpl.
    f_equal. apply tolist_flat. rewrite Hshape, Hlen, Na, Nmu, Nq. reflexivity.
Qed.

Lemma example_raw_input : prepare_input example_raw = Ok example_input.
Proof. vm_compute. reflexivity. Qed.

(** C4: on an adapter prepared with a valid input on which the objective
    evaluates, [calculate_jacobian 1] stores a flat gradient with one entry
    per element of [alphas], [means] and [icf], the entries for [alphas]
    first, then those for [means], then those for [icf];
    [calculate_jacobianGMM] returns that gradient as a flat list, which for
    the two-component, two-dimensional record with one data point has
    length 10. *)
Theorem jacobian_gradient_layout (raw : gmap string pyval) (input : GMMInput.t)
    (ins ps : tensors3) (v : tensor) :
  prepare_input raw = Ok input ->
  to_torch_tensors
    (GMMInput.alphas input, GMMInput.means input, GMMInput.icf input) true = Ok ins ->
  to_torch_tensors
    (GMMInput.x input, Wishart.gamma (GMMInput.wishart input),
     Wishart.m (GMMInput.wishart input)) grad_req_default = Ok ps ->
  apply_star gmm_objective ins ps = Ok v ->
  let n_alphas := count_elements (GMMInput.alphas input) in
  let n_means := count_elements (GMMInput.means input) in
  let n_icf := count_elements (GMMInput.icf input) in
  let d_alphas := grad_wrt gmm_objective ins ps 0 ins.1.1 in
  let d_means := grad_wrt gmm_objective ins ps 1 ins.1.2 in
  let d_icf := grad_wrt gmm_objective ins ps 2 ins.2 in
  exists g l,
    (shape g = [(n_alphas + n_means + n_icf)%nat]
     /\ length (data g) = (n_alphas + n_means + n_icf)%nat
     /\ data g = d_alphas ++ d_means ++ d_icf
     /\ length d_alphas = n_alphas /\ length d_means = n_means
     /\ length d_icf = n_icf)
    /\ (forall o tr,
          bind (prepare input) (fun _ => calculate_jacobian 1) (o, tr)
          = (Ok tt, ({| inputs := Some ins; params := Some ps;
                        objective := Some v; gradient := Some g |},
                     EvalJacobian :: tr)))
    /\ (forall w, (calculate_jacobianGMM raw w).1 = Ok (PyList l))
    /\ l = map PyFloat (data g)
    /\ length l = (n_alphas + n_means + n_icf)%nat
    /\ (raw = example_raw -> length l = 10%nat).
Proof.
  intros Hraw Hi Hp Hv n_alphas n_means n_icf d_alphas d_means d_icf.
  destruct (jacobian_layout raw input ins ps v Hraw Hi Hp Hv)
    as (g & Hlayout & Hrun & Hwrap).
  exists g, (map PyFloat (data g)).
  assert (Hl : length (map PyFloat (data g)) = (n_alphas + n_means + n_icf)%nat).
  { rewrite length_map. apply Hlayout. }
  repeat split; try apply Hlayout; auto.
  intros ->. rewrite Hl. subst n_alphas n_means n_icf.
  rewrite example_raw_input in Hraw. injection Hraw as <-. reflexivity.
Qed.

(** ** Further behaviour of the adapter *)

(** *** [prepare_input] *)

(** [prepare_input] either finds all six keys and succeeds, or raises
    [KeyError] for the first key, in reading order, that the record lacks. *)
Theorem prepare_input_first_missing_key (input : gmap string pyval) :
  (Forall (fun k => is_Some (input !! k)) required_keys
   /\ exists prepared, prepare_input input = Ok prepared)
  \/ (exists pre k post,
        required_keys = pre ++ k :: post
        /\ Forall (fun k' => is_Some (input !! k')) pre
        /\ input !! k = None
        /\ prepare_input input = Raise (KeyError k)).
Proof using.
  unfold prepare_input, getitem, required_keys.
  destruct (input !! "alpha") as [a|] eqn:Ha;
    [|right; exists [], "alpha", ["means"; "icf"; "x"; "gamma"; "m"]%string; auto].
  destruct (input !! "means") as [mu|] eqn:Hmu;
    [|right; exists ["alpha"]%string, "means", ["icf"; "x"; "gamma"; "m"]%string;
      repeat split; auto; repeat constructor; rewrite ?Ha; eauto].
  destruct (input !! "icf") as [q|] eqn:Hq;
    [|right; exists ["alpha"; "means"]%string, "icf", ["x"; "gamma"; "m"]%string;
      repeat split; auto; repeat constructor; rewrite ?Ha, ?Hmu; eauto].
  destruct (input !! "x") as [xs|] eqn:Hx;
    [|right; exists ["alpha"; "means"; "icf"]%string, "x", ["gamma"; "m"]%string;
      repeat split; auto; repeat constructor; rewrite ?Ha, ?Hmu, ?Hq; eauto].
  destruct (input !! "gamma") as [g|] eqn:Hg;
    [|right; exists ["alpha"; "means"; "icf"; "x"]%string, "gamma", ["m"]%string;
      repeat split; auto; repeat constructor; rewrite ?Ha, ?Hmu, ?Hq, ?Hx; eauto].
  destruct (input !! "m") as [wm|] eqn:Hm;
    [|right; exists ["alpha"; "means"; "icf"; "x"; "gamma"]%string, "m", [];
      repeat split; auto; repeat constructor; rewrite ?Ha, ?Hmu, ?Hq, ?Hx, ?Hg; eauto].
  left. split; [|simpl; eauto].
  repeat constructor; rewrite ?Ha, ?Hmu, ?Hq, ?Hx, ?Hg, ?Hm; eauto.
Qed.

(** [prepare_input] reads the six keys and nothing else: two records that
    agree on them give the same result, whatever other keys they hold. *)
Theorem prepare_input_only_required_keys (input1 input2 : gmap string pyval) :
  Forall (fun k => input1 !! k = input2 !! k) required_keys ->
  prepare_input input1 = prepare_input input2.
Proof using.
  unfold required_keys. intros H.
  apply Forall_cons in H as [H0 H]. apply Forall_cons in H as [H1 H].
  apply Forall_cons in H as [H2 H]. apply Forall_cons in H as [H3 H].
  apply Forall_cons in H as [H4 H]. apply Forall_cons in H as [H5 H].
  unfold prepare_input, getitem. now rewrite H0, H1, H2, H3, H4, H5.
Qed.

(** *** [prepare] *)

(** The three ways [prepare] can end. *)
Lemma prepare_cases (input : GMMInput.t) (o : PyTorchGMM) (tr : list event) :
  match to_torch_tensors
          (GMMInput.alphas input, GMMInput.means input, GMMInput.icf input) true with
  | Raise e => prepare input (o, tr) = (Raise e, (o, tr))
  | Ok ins =>
      match to_torch_tensors
              (GMMInput.x input, Wishart.gamma (GMMInput.wishart input),
               Wishart.m (GMMInput.wishart input)) grad_req_default with
      | Raise e => prepare input (o, tr) = (Raise e, (set_inputs ins o, tr))
      | Ok ps =>
          prepare input (o, tr)
          = (Ok tt, ({| inputs := Some ins; params := Some ps;
                        objective := Some (torch_zeros 1);
                        gradient := Some (torch_empty 0) |}, tr))
      end
  end.
Proof using.
  destruct (to_torch_tensors (GMMInput.alphas input, _, _) true) as [ins|e] eqn:Hi.
  - destruct (to_torch_tensors (GMMInput.x input, _, _) grad_req_default)
      as [ps|e] eqn:Hp.
    + now apply prepare_run.
    + unfold prepare, bind, lift, setattr. rewrite Hi. cbv beta iota.
      rewrite Hp. reflexivity.
  - unfold prepare, bind, lift. now rewrite Hi.
Qed.

(** What [prepare] does in each case: when the differentiable fields are
    rejected nothing is assigned; when these convert and the other three are
    rejected, [inputs] has already been assigned and stays so; otherwise all
    four attributes are assigned. *)
Theorem prepare_outcome (input : GMMInput.t) (o : PyTorchGMM) (tr : list event) :
  match to_torch_tensors
          (GMMInput.alphas input, GMMInput.means input, GMMInput.icf input) true with
  | Raise e => prepare input (o, tr) = (Raise e, (o, tr))
  | Ok ins =>
      match to_torch_tensors
              (GMMInput.x input, Wishart.gamma (GMMInput.wishart input),
               Wishart.m (GMMInput.wishart input)) grad_req_default with
      | Raise e => prepare input (o, tr) = (Raise e, (set_inputs ins o, tr))
      | Ok ps =>
          prepare input (o, tr)
          = (Ok tt, ({| inputs := Some ins; params := Some ps;
                        objective := Some (torch_zeros 1);
                        gradient := Some (torch_empty 0) |}, tr))
      end
  end.
Proof using.
  exact (prepare_cases input o tr).
Qed.

(** A successful [prepare] overwrites whatever the instance held: its
    outcome never depends on the earlier attributes, and when it succeeds
    neither does the instance it leaves. *)
Theorem prepare_resets (input : GMMInput.t) (o1 o2 : PyTorchGMM) (tr : list event) :
  (prepare input (o1, tr)).1 = (prepare input (o2, tr)).1
  /\ ((prepare input (o1, tr)).1 = Ok tt ->
      (prepare input (o1, tr)).2 = (prepare input (o2, tr)).2).
Proof using.
  pose proof (prepare_cases input o1 tr) as H1.
  pose proof (prepare_cases input o2 tr) as H2.
  destruct (to_torch_tensors (GMMInput.alphas input, _, _) true) as [ins|e].
  - destruct (to_torch_tensors (GMMInput.x input, _, _) grad_req_default) as [ps|e];
      rewrite H1, H2; simpl; split; auto; discriminate.
  - rewrite H1, H2. simpl. split; auto; discriminate.
Qed.

(** *** The loops *)

Lemma jacobian_pass_cases o tr :
  (inputs o = None
   /\ jacobian_pass (o, tr) = (Raise (AttributeError "inputs"), (o, tr)))
  \/ (exists ins, inputs o = Some ins /\ params o = None
      /\ jacobian_pass (o, tr) = (Raise (AttributeError "params"), (o, tr)))
  \/ (exists ins ps e, inputs o = Some ins /\ params o = Some ps
      /\ torch_jacobian gmm_objective ins ps = Raise e
      /\ jacobian_pass (o, tr) = (Raise e, (o, EvalJacobian :: tr)))
  \/ (exists ins ps v g, inputs o = Some ins /\ params o = Some ps
      /\ torch_jacobian gmm_objective ins ps = Ok (v, g)
      /\ jacobian_pass (o, tr)
         = (Ok tt, (set_gradient g (set_objective v o), EvalJacobian :: tr))).
Proof.
  destruct (inputs o) as [ins|] eqn:Hi; [|left; split; auto using jacobian_pass_unset].
  right. destruct (params o) as [ps|] eqn:Hp.
  - right. destruct (torch_jacobian gmm_objective ins ps) as [[v g]|e] eqn:Hj.
    + right. exists ins, ps, v, g. repeat split; auto.
      now apply jacobian_pass_run with (ins := ins) (ps := ps).
    + left. exists ins, ps, e. repeat split; auto. unfold jacobian_pass.
      rewrite (bind_ok _ _ _ _ _ (getattr_set "inputs" inputs o tr ins Hi)).
      rewrite (bind_ok _ _ _ _ _ (getattr_set "params" params o tr ps Hp)).
      unfold bind, emit, lift. cbv beta iota. rewrite Hj. reflexivity.
  - left. exists ins. repeat split; auto. unfold jacobian_pass.
    rewrite (bind_ok _ _ _ _ _ (getattr_set "inputs" inputs o tr ins Hi)).
    now rewrite (bind_raise _ _ _ _ _ (getattr_unset "params" params o tr Hp)).
Qed.

Lemma jacobian_loop_stable o ins ps v g :
  inputs o = Some ins -> params o = Some ps ->
  torch_jacobian gmm_objective ins ps = Ok (v, g) ->
  forall n tr,
    iterate n jacobian_pass (set_gradient g (set_objective v o), tr)
    = (Ok tt, (set_gradient g (set_objective v o), replicate n EvalJacobian ++ tr)).
Proof.
  intros Hi Hp Hj n. induction n as [|n IH]; intros tr; [reflexivity|].
  rewrite (iterate_ok _ _ _ _
             (jacobian_pass_run (set_gradient g (set_objective v o)) tr ins ps v g
                Hi Hp Hj)).
  change (set_gradient g (set_objective v (set_gradient g (set_objective v o))))
    with (set_gradient g (set_objective v o)).
  rewrite IH. now rewrite replicate_shift.
Qed.

(** [calculate_jacobian] never assigns [inputs] or [params], and every
    external call it makes goes to the Jacobian routine. *)
Theorem calculate_jacobian_frame (times : Z) (o : PyTorchGMM) (tr : list event) :
  let after := calculate_jacobian times (o, tr) in
  inputs after.2.1 = inputs o /\ params after.2.1 = params o
  /\ exists k, after.2.2 = replicate k EvalJacobian ++ tr.
Proof.
  unfold calculate_jacobian, for_range. generalize (Z.to_nat times) as n.
  intros n. revert o tr. induction n as [|n IH]; intros o tr.
  - simpl. repeat split. now exists 0%nat.
  - destruct (jacobian_pass_cases o tr)
      as [[_ Heq] | [(ins & _ & _ & Heq) | [(ins & ps & e & _ & _ & _ & Heq)
          | (ins & ps & v & g & _ & _ & _ & Heq)]]].
    + rewrite (iterate_raise _ _ _ _ _ Heq). simpl. repeat split. now exists 0%nat.
    + rewrite (iterate_raise _ _ _ _ _ Heq). simpl. repeat split. now exists 0%nat.
    + rewrite (iterate_raise _ _ _ _ _ Heq). simpl. repeat split. now exists 1%nat.
    + rewrite (iterate_ok _ _ _ _ Heq).
      destruct (IH (set_gradient g (set_objective v o)) (EvalJacobian :: tr))
        as (H1 & H2 & k & H3).
      cbv zeta in *. rewrite H1, H2, H3. simpl. repeat split.
      exists (S k). apply replicate_shift.
Qed.

(** The objective loop on a prepared adapter, pass by pass. *)
Lemma objective_loop_count (times : Z) (o : PyTorchGMM) (tr : list event)
    (ins ps : tensors3) (v : tensor) :
  inputs o = Some ins -> params o = Some ps ->
  apply_star gmm_objective ins ps = Ok v ->
  calculate_objective times (o, tr)
  = (Ok tt, (if decide (0 < times)%Z then set_objective v o else o,
             replicate (Z.to_nat times) EvalObjective ++ tr)).
Proof.
  intros Hi Hp Hv. destruct (decide (0 < times)%Z) as [Hpos|Hneg].
  - apply calculate_objective_prepared with (ins := ins) (ps := ps); auto. lia.
  - unfold calculate_objective, for_range. replace (Z.to_nat times) with 0%nat by lia.
    reflexivity.
Qed.

(** On a prepared adapter whose objective evaluates, [calculate_objective]
    calls the objective exactly [times] times (not at all for [times <= 0])
    and stores the value when it made a call. *)
Theorem calculate_objective_call_count (times : Z) (o : PyTorchGMM) (tr : list event)
    (ins ps : tensors3) (v : tensor) :
  inputs o = Some ins -> params o = Some ps ->
  apply_star gmm_objective ins ps = Ok v ->
  calculate_objective times (o, tr)
  = (Ok tt, (if decide (0 < times)%Z then set_objective v o else o,
             replicate (Z.to_nat times) EvalObjective ++ tr)).
Proof.
  intros Hi Hp Hv. exact (objective_loop_count times o tr ins ps v Hi Hp Hv).
Qed.

(** The Jacobian loop on a prepared adapter, pass by pass. *)
Lemma jacobian_loop_count (times : Z) (o : PyTorchGMM) (tr : list event)
    (ins ps : tensors3) (v g : tensor) :
  inputs o = Some ins -> params o = Some ps ->
  torch_jacobian gmm_objective ins ps = Ok (v, g) ->
  calculate_jacobian times (o, tr)
  = (Ok tt, (if decide (0 < times)%Z then set_gradient g (set_objective v o) else o,
             replicate (Z.to_nat times) EvalJacobian ++ tr)).
Proof.
  intros Hi Hp Hj. unfold calculate_jacobian, for_range.
  destruct (decide (0 < times)%Z) as [Hpos|Hneg].
  - destruct (Z.to_nat times) as [|n] eqn:Hn; [lia|].
    rewrite (iterate_ok _ _ _ _ (jacobian_pass_run o tr ins ps v g Hi Hp Hj)).
    rewrite (jacobian_loop_stable o ins ps v g Hi Hp Hj). now rewrite replicate_shift.
  - replace (Z.to_nat times) with 0%nat by lia. reflexivity.
Qed.

(** On a prepared adapter on which the Jacobian routine returns [(v, g)],
    [calculate_jacobian] calls it exactly [times] times (not at all for
    [times <= 0]) and stores [v] and [g] when it made a call. *)
Theorem calculate_jacobian_call_count (times : Z) (o : PyTorchGMM) (tr : list event)
    (ins ps : tensors3) (v g : tensor) :
  inputs o = Some ins -> params o = Some ps ->
  torch_jacobian gmm_objective ins ps = Ok (v, g) ->
  calculate_jacobian times (o, tr)
  = (Ok tt, (if decide (0 < times)%Z then set_gradient g (set_objective v o) else o,
             replicate (Z.to_nat times) EvalJacobian ++ tr)).
Proof.
  intros Hi Hp Hj. exact (jacobian_loop_count times o tr ins ps v g Hi Hp Hj).
Qed.

(** For every [times >= 1], [calculate_jacobian times] ends with the same
    instance and the same outcome as [calculate_jacobian 1], in every state. *)
Theorem calculate_jacobian_times_once (times : Z) (s : PyTorchGMM * list event) :
  (1 <= times)%Z ->
  (calculate_jacobian times s).2.1 = (calculate_jacobian 1 s).2.1
  /\ (calculate_jacobian times s).1 = (calculate_jacobian 1 s).1.
Proof.
  intros Ht. destruct s as [o tr].
  destruct (jacobian_pass_cases o tr)
    as [[_ Heq] | [(ins & _ & _ & Heq) | [(ins & ps & e & _ & _ & _ & Heq)
        | (ins & ps & v & g & Hi & Hp & Hj & _)]]].
  4: { rewrite !(jacobian_loop_count _ o tr ins ps v g Hi Hp Hj).
       destruct (decide (0 < times)%Z); [now split | lia]. }
  all: unfold calculate_jacobian, for_range;
    destruct (Z.to_nat times) as [|n] eqn:Hn; [lia|];
    change (Z.to_nat 1) with 1%nat;
    rewrite !(iterate_raise _ _ _ _ _ Heq); now split.
Qed.

(** The objective loop when its first pass raises. *)
Lemma objective_loop_raises (times : Z) (o : PyTorchGMM) (tr : list event)
    (ins ps : tensors3) (e : exn) :
  (0 < times)%Z ->
  inputs o = Some ins -> params o = Some ps ->
  apply_star gmm_objective ins ps = Raise e ->
  calculate_objective times (o, tr) = (Raise e, (o, EvalObjective :: tr)).
Proof.
  intros Ht Hi Hp He. unfold calculate_objective, for_range.
  destruct (Z.to_nat times) as [|n] eqn:Hn; [lia|].
  pose proof (objective_pass_outcome o tr) as H.
  inversion H as [Hi' Heq | ins' Hi' Hp' Heq | ins' ps' e' Hi' Hp' He' Heq
                  | ins' ps' v' Hi' Hp' Hv' Heq]; try congruence.
  assert (e' = e) by congruence. subst e'.
  symmetry in Heq. apply (iterate_raise _ _ _ _ _ Heq).
Qed.

(** When the objective raises on a prepared adapter, [calculate_objective]
    stops at the first pass: the exception reaches the caller, one external
    call was made and no attribute was assigned. *)
Theorem calculate_objective_propagates (times : Z) (o : PyTorchGMM) (tr : list event)
    (ins ps : tensors3) (e : exn) :
  (0 < times)%Z ->
  inputs o = Some ins -> params o = Some ps ->
  apply_star gmm_objective ins ps = Raise e ->
  calculate_objective times (o, tr) = (Raise e, (o, EvalObjective :: tr)).
Proof.
  intros Ht Hi Hp He. exact (objective_loop_raises times o tr ins ps e Ht Hi Hp He).
Qed.

(** The Jacobian loop when its first pass raises. *)
Lemma jacobian_loop_raises (times : Z) (o : PyTorchGMM) (tr : list event)
    (ins ps : tensors3) (e : exn) :
  (0 < times)%Z ->
  inputs o = Some ins -> params o = Some ps ->
  torch_jacobian gmm_objective ins ps = Raise e ->
  calculate_jacobian times (o, tr) = (Raise e, (o, EvalJacobian :: tr)).
Proof.
  intros Ht Hi Hp He. unfold calculate_jacobian, for_range.
  destruct (Z.to_nat times) as [|n] eqn:Hn; [lia|].
  destruct (jacobian_pass_cases o tr)
    as [[Hi' _] | [(ins' & _ & Hp' & _) | [(ins' & ps' & e' & Hi' & Hp' & He' & Heq)
        | (ins' & ps' & v & g & Hi' & Hp' & Hj & _)]]]; try congruence.
  assert (e' = e) by congruence. subst e'.
  apply (iterate_raise _ _ _ _ _ Heq).
Qed.

(** The same for [calculate_jacobian] when the Jacobian routine raises. *)
Theorem calculate_jacobian_propagates (times : Z) (o : PyTorchGMM) (tr : list event)
    (ins ps : tensors3) (e : exn) :
  (0 < times)%Z ->
  inputs o = Some ins -> params o = Some ps ->
  torch_jacobian gmm_objective ins ps = Raise e ->
  calculate_jacobian times (o, tr) = (Raise e, (o, EvalJacobian :: tr)).
Proof.
  intros Ht Hi Hp He. exact (jacobian_loop_raises times o tr ins ps e Ht Hi Hp He).
Qed.

(** An adapter left half prepared ([inputs] assigned, [params] not, as after
    a [prepare] that failed on the second conversion) makes both evaluation
    methods raise the attribute error for [params], without an external
    call. *)
Theorem calculate_half_prepared (times : Z) (o : PyTorchGMM) (tr : list event)
    (ins : tensors3) :
  (0 < times)%Z ->
  inputs o = Some ins -> params o = None ->
  calculate_objective times (o, tr) = (Raise (AttributeError "params"), (o, tr))
  /\ calculate_jacobian times (o, tr) = (Raise (AttributeError "params"), (o, tr)).
Proof.
  intros Ht Hi Hp. unfold calculate_objective, calculate_jacobian, for_range.
  destruct (Z.to_nat times) as [|n] eqn:Hn; [lia|]. split.
  - pose proof (objective_pass_outcome o tr) as H.
    inversion H as [Hi' Heq | ins' Hi' Hp' Heq | ins' ps' e' Hi' Hp' He' Heq
                    | ins' ps' v' Hi' Hp' Hv' Heq]; try congruence.
    symmetry in Heq. apply (iterate_raise _ _ _ _ _ Heq).
  - destruct (jacobian_pass_cases o tr)
      as [[Hi' _] | [(ins' & _ & _ & Heq) | [(ins' & ps' & e' & _ & Hp' & _)
          | (ins' & ps' & v & g & _ & Hp' & _)]]]; try congruence.
    apply (iterate_raise _ _ _ _ _ Heq).
Qed.

(** *** The wrapped entry points, end to end *)

Lemma entry_point_trace (session : GMMInput.t -> Obj tensor)
    (function : GMMInput.t -> M tensor) (input : gmap string pyval)
    (prepared : GMMInput.t) (w : world) :
  (forall prepared w',
     function prepared w' = bind new_PyTorchGMM (fun py => call py (session prepared)) w') ->
  prepare_input input = Ok prepared ->
  trace (wrap prepare_input tolist function input w).2
  = (session prepared (unprepared, trace w)).2.2.
Proof.
  intros Hf Hraw. unfold wrap. rewrite Hraw.
  change (bind (lift (Ok prepared)) ?k w) with (k prepared w). cbv beta.
  destruct (new_then_call (session prepared) w) as (_ & H2 & _).
  rewrite <- Hf in H2. unfold bind, ret.
  now destruct (function prepared w) as [[out|e] w'].
Qed.

Lemma objective_session_run input tr ins ps :
  to_torch_tensors
    (GMMInput.alphas input, GMMInput.means input, GMMInput.icf input) true = Ok ins ->
  to_torch_tensors
    (GMMInput.x input, Wishart.gamma (GMMInput.wishart input),
     Wishart.m (GMMInput.wishart input)) grad_req_default = Ok ps ->
  forall r, apply_star gmm_objective ins ps = r ->
  (objective_session input (unprepared, tr)).1 = r
  /\ (objective_session input (unprepared, tr)).2.2 = EvalObjective :: tr.
Proof.
  intros Hi Hp r Hr. unfold objective_session.
  rewrite (bind_ok _ _ _ _ _ (prepare_run input unprepared tr ins ps Hi Hp)).
  set (o := {| inputs := Some ins; params := Some ps;
               objective := Some (torch_zeros 1);
               gradient := Some (torch_empty 0) |}).
  destruct r as [v|e].
  - rewrite (bind_ok _ _ _ _ _
               (objective_loop_count 1 o tr ins ps v eq_refl eq_refl Hr)).
    now split.
  - rewrite (bind_raise _ _ _ _ _
               (objective_loop_raises 1 o tr ins ps e eq_refl eq_refl eq_refl Hr)).
    now split.
Qed.

Lemma jacobian_session_trace input tr ins ps :
  to_torch_tensors
    (GMMInput.alphas input, GMMInput.means input, GMMInput.icf input) true = Ok ins ->
  to_torch_tensors
    (GMMInput.x input, Wishart.gamma (GMMInput.wishart input),
     Wishart.m (GMMInput.wishart input)) grad_req_default = Ok ps ->
  (jacobian_session input (unprepared, tr)).2.2 = EvalJacobian :: tr
  /\ forall e, apply_star gmm_objective ins ps = Raise e ->
       (jacobian_session input (unprepared, tr)).1 = Raise e.
Proof.
  intros Hi Hp. unfold jacobian_session.
  rewrite (bind_ok _ _ _ _ _ (prepare_run input unprepared tr ins ps Hi Hp)).
  set (o := {| inputs := Some ins; params := Some ps;
               objective := Some (torch_zeros 1);
               gradient := Some (torch_empty 0) |}).
  destruct (torch_jacobian gmm_objective ins ps) as [[v g]|e] eqn:Hj.
  - rewrite (bind_ok _ _ _ _ _
               (jacobian_loop_count 1 o tr ins ps v g eq_refl eq_refl Hj)).
    split; [reflexivity|]. intros e He. unfold torch_jacobian in Hj.
    rewrite He in Hj. discriminate.
  - rewrite (bind_raise _ _ _ _ _
               (jacobian_loop_raises 1 o tr ins ps e eq_refl eq_refl eq_refl Hj)).
    split; [reflexivity|]. intros e' He. unfold torch_jacobian in Hj.
    rewrite He in Hj. simpl in Hj. simpl. congruence.
Qed.

(** On a record that converts and on which the objective evaluates to [v],
    [calculate_objectiveGMM] returns [v] as a plain value after exactly one
    evaluation of the objective and none of the Jacobian, and
    [calculate_jacobianGMM] makes exactly one call, to the Jacobian routine. *)
Theorem entry_points_evaluate_once (raw : gmap string pyval) (input : GMMInput.t)
    (ins ps : tensors3) (v : tensor) (w : world) :
  prepare_input raw = Ok input ->
  to_torch_tensors
    (GMMInput.alphas input, GMMInput.means input, GMMInput.icf input) true = Ok ins ->
  to_torch_tensors
    (GMMInput.x input, Wishart.gamma (GMMInput.wishart input),
     Wishart.m (GMMInput.wishart input)) grad_req_default = Ok ps ->
  apply_star gmm_objective ins ps = Ok v ->
  (calculate_objectiveGMM raw w).1 = Ok (tolist v)
  /\ trace (calculate_objectiveGMM raw w).2 = EvalObjective :: trace w
  /\ trace (calculate_jacobianGMM raw w).2 = EvalJacobian :: trace w.
Proof.
  intros Hraw Hi Hp Hv.
  destruct (objective_session_run input (trace w) ins ps Hi Hp _ Hv) as [Hr Ht].
  split; [|split].
  - destruct (calculate_objectiveGMM_run raw w) as [-> _].
    unfold session_result. rewrite Hraw. simpl. now rewrite Hr.
  - unfold calculate_objectiveGMM.
    rewrite (entry_point_trace objective_session _ raw input w); auto.
    intros prepared w'. apply calculate_objectiveGMM_session.
  - unfold calculate_jacobianGMM.
    rewrite (entry_point_trace jacobian_session _ raw input w); auto.
    + now apply (jacobian_session_trace input (trace w) ins ps).
    + intros prepared w'. apply calculate_jacobianGMM_session.
Qed.

(** An exception of the objective reaches the caller of either entry point
    unchanged, after the single external call that raised it. *)
Theorem entry_points_propagate (raw : gmap string pyval) (input : GMMInput.t)
    (ins ps : tensors3) (e : exn) (w : world) :
  prepare_input raw = Ok input ->
  to_torch_tensors
    (GMMInput.alphas input, GMMInput.means input, GMMInput.icf input) true = Ok ins ->
  to_torch_tensors
    (GMMInput.x input, Wishart.gamma (GMMInput.wishart input),
     Wishart.m (GMMInput.wishart input)) grad_req_default = Ok ps ->
  apply_star gmm_objective ins ps = Raise e ->
  ((calculate_objectiveGMM raw w).1 = Raise e
   /\ trace (calculate_objectiveGMM raw w).2 = EvalObjective :: trace w)
  /\ ((calculate_jacobianGMM raw w).1 = Raise e
      /\ trace (calculate_jacobianGMM raw w).2 = EvalJacobian :: trace w).
Proof.
  intros Hraw Hi Hp He.
  destruct (objective_session_run input (trace w) ins ps Hi Hp _ He) as [Hr Ht].
  destruct (jacobian_session_trace input (trace w) ins ps Hi Hp) as [Jt Jr].
  repeat split.
  - destruct (calculate_objectiveGMM_run raw w) as [-> _].
    unfold session_result. rewrite Hraw. simpl. now rewrite Hr.
  - unfold calculate_objectiveGMM.
    rewrite (entry_point_trace objective_session _ raw input w); auto.
    intros prepared w'. apply calculate_objectiveGMM_session.
  - destruct (calculate_jacobianGMM_run raw w) as [-> _].
    unfold session_result. rewrite Hraw. simpl. now rewrite (Jr e He).
  - unfold calculate_jacobianGMM.
    rewrite (entry_point_trace jacobian_session _ raw input w); auto.
    intros prepared w'. apply calculate_jacobianGMM_session.
Qed.

End Adapter.

(** * The adapter on the example record *)

Lemma example_inputs_converted :
  to_torch_tensors
    (GMMInput.alphas example_input, GMMInput.means example_input,
     GMMInput.icf example_input) true = Ok example_inputs.
Proof. vm_compute. reflexivity. Qed.

Lemma example_params_converted :
  to_torch_tensors
    (GMMInput.x example_input, Wishart.gamma (GMMInput.wishart example_input),
     Wishart.m (GMMInput.wishart example_input)) grad_req_default = Ok example_params.
Proof. vm_compute. reflexivity. Qed.

Lemma example_objective_value :
  apply_star sum_objective example_inputs example_params = Ok example_value.
Proof. vm_compute. reflexivity. Qed.

Example prepare_example :
  prepare example_input (unprepared, []) = (Ok tt, (example_prepared, [])).
Proof. vm_compute. reflexivity. Qed.

(** With a zero-dimensional objective tensor the wrapped entry point returns
    a bare number. *)
Example calculate_objectiveGMM_example :
  (calculate_objectiveGMM sum_objective example_raw empty_world).1 = Ok (PyFloat 5).
Proof. vm_compute. reflexivity. Qed.

Example calculate_jacobianGMM_example :
  (calculate_jacobianGMM sum_objective sum_partial_derivative example_raw empty_world).1
  = Ok (PyList (replicate 10 (PyFloat 1))).
Proof. vm_compute. reflexivity. Qed.

Example output_after_prepare_example :
  bind (prepare example_input) (fun _ => output) (unprepared, [])
  = (Raise (NameError "GMMOutput"), (example_prepared, [])).
Proof. vm_compute. reflexivity. Qed.

Lemma calculate_before_prepare_witness :
  (0 < 3)%Z
  /\ calculate_objective sum_objective 3 (unprepared, [])
     = (Raise (AttributeError "inputs"), (unprepared, []))
  /\ calculate_jacobian sum_objective sum_partial_derivative 3 (unprepared, [])
     = (Raise (AttributeError "inputs"), (unprepared, [])).
Proof.
  split; [lia|].
  apply (calculate_before_prepare sum_objective sum_partial_derivative 3 []). lia.
Defined.

Lemma calculate_objective_times_once_witness :
  (1 <= 3)%Z
  /\ objective (calculate_objective sum_objective 3 (example_prepared, [])).2.1
     = objective (calculate_objective sum_objective 1 (example_prepared, [])).2.1.
Proof.
  split; [lia|].
  apply (calculate_objective_times_once sum_objective 3 (example_prepared, [])). lia.
Defined.

Lemma prepare_input_exact_witness :
  prepare_input example_raw = Ok example_input.
Proof.
  apply (prepare_input_exact example_raw); reflexivity.
Defined.



Lemma jacobian_gradient_layout_witness :
  exists l,
    (calculate_jacobianGMM sum_objective sum_partial_derivative example_raw empty_world).1
    = Ok (PyList l)
    /\ length l = 10%nat.
Proof.
  destruct (jacobian_gradient_layout sum_objective sum_partial_derivative
              example_raw example_input example_inputs example_params example_value
              example_raw_input example_inputs_converted example_params_converted
              example_objective_value)
    as (g & l & _ & _ & Hwrap & _ & _ & Hten).
  exists l. split; [apply Hwrap | apply Hten; reflexivity].
Defined.

(** * Further behaviour on the example record *)

Lemma example_jacobian_value :
  torch_jacobian sum_partial_derivative sum_objective example_inputs example_params
  = Ok (example_value, example_gradient).
Proof. vm_compute. reflexivity. Qed.

Lemma prepare_input_only_required_keys_witness :
  prepare_input (<["comment" := PyInt 7]> example_raw) = prepare_input example_raw.
Proof.
  apply (prepare_input_only_required_keys (<["comment" := PyInt 7]> example_raw)
           example_raw).
  repeat constructor.
Defined.

Lemma calculate_objective_call_count_witness :
  calculate_objective sum_objective 3 (example_prepared, [])
  = (Ok tt, (set_objective example_value example_prepared,
             [EvalObjective; EvalObjective; EvalObjective])).
Proof.
  apply (calculate_objective_call_count sum_objective 3 example_prepared []
           example_inputs example_params example_value eq_refl eq_refl
           example_objective_value).
Defined.

Lemma calculate_jacobian_call_count_witness :
  calculate_jacobian sum_objective sum_partial_derivative 2 (example_prepared, [])
  = (Ok tt, (set_gradient example_gradient
               (set_objective example_value example_prepared),
             [EvalJacobian; EvalJacobian])).
Proof.
  apply (calculate_jacobian_call_count sum_objective sum_partial_derivative 2
           example_prepared [] example_inputs example_params example_value
           example_gradient eq_refl eq_refl example_jacobian_value).
Defined.

Lemma calculate_jacobian_times_once_witness :
  (1 <= 4)%Z
  /\ (calculate_jacobian sum_objective sum_partial_derivative 4 (example_prepared, [])).2.1
     = (calculate_jacobian sum_objective sum_partial_derivative 1 (example_prepared, [])).2.1.
Proof.
  split; [lia|].
  apply (calculate_jacobian_times_once sum_objective sum_partial_derivative 4
           (example_prepared, [])). lia.
Defined.

Lemma calculate_objective_propagates_witness :
  calculate_objective failing_objective 3 (example_prepared, [])
  = (Raise (NumericalError "domain error"), (example_prepared, [EvalObjective])).
Proof.
  apply (calculate_objective_propagates failing_objective 3 example_prepared []
           example_inputs example_params (NumericalError "domain error"));
    [lia | reflexivity | reflexivity | reflexivity].
Defined.

Lemma calculate_jacobian_propagates_witness :
  calculate_jacobian failing_objective sum_partial_derivative 3 (example_prepared, [])
  = (Raise (NumericalError "domain error"), (example_prepared, [EvalJacobian])).
Proof.
  apply (calculate_jacobian_propagates failing_objective sum_partial_derivative 3
           example_prepared [] example_inputs example_params
           (NumericalError "domain error"));
    [lia | reflexivity | reflexivity | reflexivity].
Defined.

Lemma calculate_half_prepared_witness :
  calculate_objective sum_objective 2 (set_inputs example_inputs unprepared, [])
  = (Raise (AttributeError "params"), (set_inputs example_inputs unprepared, []))
  /\ calculate_jacobian sum_objective sum_partial_derivative 2
       (set_inputs example_inputs unprepared, [])
     = (Raise (AttributeError "params"), (set_inputs example_inputs unprepared, [])).
Proof.
  apply (calculate_half_prepared sum_objective sum_partial_derivative 2
           (set_inputs example_inputs unprepared) [] example_inputs);
    [lia | reflexivity | reflexivity].
Defined.

Lemma entry_points_evaluate_once_witness :
  (calculate_objectiveGMM sum_objective example_raw empty_world).1
  = Ok (tolist example_value)
  /\ trace (calculate_objectiveGMM sum_objective example_raw empty_world).2
     = [EvalObjective]
  /\ trace (calculate_jacobianGMM sum_objective sum_partial_derivative example_raw
              empty_world).2
     = [EvalJacobian].
Proof.
  apply (entry_points_evaluate_once sum_objective sum_partial_derivative example_raw
           example_input example_inputs example_params example_value empty_world
           example_raw_input example_inputs_converted example_params_converted
           example_objective_value).
Defined.

Lemma entry_points_propagate_witness :
  (calculate_objectiveGMM failing_objective example_raw empty_world).1
  = Raise (NumericalError "domain error")
  /\ (calculate_jacobianGMM failing_objective sum_partial_derivative example_raw
        empty_world).1
     = Raise (NumericalError "domain error").
Proof.
  destruct (entry_points_propagate failing_objective sum_partial_derivative example_raw
              example_input example_inputs example_params
              (NumericalError "domain error") empty_world
              example_raw_input example_inputs_converted example_params_converted
              eq_refl) as [[H1 _] [H2 _]].
  split; assumption.
Defined.
